(** * The side-effect scanner of [scanner/cli.py]

    A shallow embedding of the scanner: the text reconstruction
    [full_name_from_cursor], the recursive search [has_side_effects], the
    per-function collection [scan_function] and the report printed by
    [print_side_effect_info] and [main].

    libclang ([clang.cindex]) is an external collaborator.  A cursor is a
    record holding the answers the scanner reads from it; the file system is a
    map from paths to contents; standard output is the list of the lines
    printed so far.  Python exceptions are the [Raise] results of a small
    error monad.

    What the library does is part of the model where the source depends on
    it: the cursor of a built-in operator has an empty spelling, a [Type]
    has no attribute [canonical], and [CursorKind] has no member
    [POINTER_TYPE] or [LVALUE_REFERENCE]. *)

From Stdlib Require Import ZArith List String Ascii Bool Lia DecimalString.
Import ListNotations.

Local Open Scope string_scope.
Local Open Scope list_scope.
Local Open Scope Z_scope.

Set Implicit Arguments.

(** ** Exceptions *)

Inductive exn : Set :=
| IndexError          (* a list index out of range *)
| FileNotFoundError   (* [Path(filename).open("r")] on a missing file *)
| AttributeError.     (* an attribute that the object does not have *)

Inductive result (A : Type) : Type :=
| Ok (a : A)
| Raise (e : exn).

Arguments Ok {A} a.
Arguments Raise {A} e.

Definition bind {A B : Type} (m : result A) (k : A -> result B) : result B :=
  match m with
  | Ok a => k a
  | Raise e => Raise e
  end.

Notation "x <- m ;; k" := (bind m (fun x => k))
  (at level 61, m at next level, right associativity).

(** ** The Python built-ins the scanner uses

    A Python [str] is a Rocq [string] with one [ascii] per code point, which
    covers the code points below 256; a Python [int] is a [Z]. *)

Module Py.

Definition len (s : string) : Z := Z.of_nat (String.length s).

(** The line boundaries of [str.splitlines] below code point 256:
    LF, VT, FF, CR, FS, GS, RS and NEL. *)
Definition is_line_boundary (c : ascii) : bool :=
  match nat_of_ascii c with
  | 10%nat | 11%nat | 12%nat | 13%nat | 28%nat | 29%nat | 30%nat | 133%nat => true
  | _ => false
  end.

Definition is_CR (c : ascii) : bool := Nat.eqb (nat_of_ascii c) 13.
Definition is_LF (c : ascii) : bool := Nat.eqb (nat_of_ascii c) 10.

(** [splitlines_from cur s]: the lines of [s], the first one prefixed by the
    characters [cur] already read.  CR LF is one boundary; a final boundary
    opens no further line. *)
Fixpoint splitlines_from (cur : string) (s : string) : list string :=
  match s with
  | EmptyString => if String.eqb cur "" then [] else [cur]
  | String c rest =>
      if is_CR c then
        match rest with
        | String c' rest' =>
            if is_LF c' then cur :: splitlines_from "" rest'
            else cur :: splitlines_from "" rest
        | EmptyString => cur :: splitlines_from "" rest
        end
      else if is_line_boundary c then cur :: splitlines_from "" rest
      else splitlines_from (cur ++ String c "") rest
  end.

(** [content.splitlines()] *)
Definition splitlines (content : string) : list string :=
  splitlines_from "" content.

(** [str.isspace] on one character, below code point 256. *)
Definition is_space (c : ascii) : bool :=
  match nat_of_ascii c with
  | 9%nat | 10%nat | 11%nat | 12%nat | 13%nat
  | 28%nat | 29%nat | 30%nat | 31%nat | 32%nat | 133%nat | 160%nat => true
  | _ => false
  end.

Fixpoint lstrip (s : string) : string :=
  match s with
  | EmptyString => EmptyString
  | String c rest => if is_space c then lstrip rest else s
  end.

Fixpoint rstrip (s : string) : string :=
  match s with
  | EmptyString => EmptyString
  | String c rest =>
      let rest' := rstrip rest in
      if is_space c && String.eqb rest' "" then EmptyString
      else String c rest'
  end.

(** [s.strip()] *)
Definition strip (s : string) : string := rstrip (lstrip s).

(** A slice bound: a negative bound counts from the end, and the result is
    clamped into [0 .. n]. *)
Definition slice_bound (n i : Z) : Z :=
  let i' := if i <? 0 then i + n else i in
  Z.max 0 (Z.min n i').

(** [s[a:b]] *)
Definition slice (s : string) (a b : Z) : string :=
  let lo := slice_bound (len s) a in
  let hi := slice_bound (len s) b in
  if lo <? hi then substring (Z.to_nat lo) (Z.to_nat (hi - lo)) s
  else EmptyString.

(** [s[:-1]] *)
Definition drop_last (s : string) : string := slice s 0 (-1).

(** [s.endswith(suffix)] *)
Definition endswith (s suffix : string) : bool :=
  let n := String.length s in
  let m := String.length suffix in
  (m <=? n)%nat && String.eqb (substring (n - m) m s) suffix.

(** [l[i]]: a negative index counts from the end; out of range raises. *)
Definition index {A : Type} (l : list A) (i : Z) : result A :=
  let n := Z.of_nat (List.length l) in
  let i' := if i <? 0 then i + n else i in
  if (0 <=? i') && (i' <? n) then
    match nth_error l (Z.to_nat i') with
    | Some x => Ok x
    | None => Raise IndexError
    end
  else Raise IndexError.

(** [range(a, b)] *)
Definition range (a b : Z) : list Z :=
  map (fun k => a + Z.of_nat k) (seq 0 (Z.to_nat (b - a))).

(** [str(n)] for an [int]. *)
Definition str_of_int (n : Z) : string :=
  NilZero.string_of_int (Z.to_int n).

End Py.

(** ** Data model *)

(** [class SideEffectKind(enum.Enum)] *)
Module SideEffectKind.

Inductive t : Set :=
| DEREFERENCE_NON_CONST_POINTER
| ASSIGN_TO_POINTER_OR_REFERENCE
| DYNAMIC_MEMORY_ALLOCATION
| THROW_EXCEPTION
| OTHER.

Definition value (k : t) : Z :=
  match k with
  | DEREFERENCE_NON_CONST_POINTER => 1
  | ASSIGN_TO_POINTER_OR_REFERENCE => 2
  | DYNAMIC_MEMORY_ALLOCATION => 3
  | THROW_EXCEPTION => 4
  | OTHER => 5
  end.

Definition name (k : t) : string :=
  match k with
  | DEREFERENCE_NON_CONST_POINTER => "DEREFERENCE_NON_CONST_POINTER"
  | ASSIGN_TO_POINTER_OR_REFERENCE => "ASSIGN_TO_POINTER_OR_REFERENCE"
  | DYNAMIC_MEMORY_ALLOCATION => "DYNAMIC_MEMORY_ALLOCATION"
  | THROW_EXCEPTION => "THROW_EXCEPTION"
  | OTHER => "OTHER"
  end.

End SideEffectKind.

(** [clang.cindex.CursorKind].  The library is not part of the repository:
    the tags are the members that [cli.py] compares a cursor's kind with,
    followed by the node kinds of the declarations, statements and
    expressions that occur in the trees below.  [cli.py] also names
    [CursorKind.POINTER_TYPE] and [CursorKind.LVALUE_REFERENCE]: the
    enumeration has no such members (pointer and reference are kinds of
    types, in [TypeKind]), and asking for them raises [AttributeError]. *)
Module CursorKind.

Inductive t : Set :=
| UNARY_OPERATOR
| BINARY_OPERATOR
| CXX_NEW_EXPR
| CXX_THROW_EXPR
| CXX_METHOD
| FUNCTION_DECL
| TRANSLATION_UNIT
| PARM_DECL
| VAR_DECL
| CLASS_DECL
| COMPOUND_STMT
| DECL_STMT
| RETURN_STMT
| UNEXPOSED_EXPR
| DECL_REF_EXPR
| CALL_EXPR
| INTEGER_LITERAL
| CXX_NULL_PTR_LITERAL_EXPR.

Definition cursor_kind_eq_dec (a b : t) : {a = b} + {a <> b}.
Proof. decide equality. Defined.

Definition eqb (a b : t) : bool := if cursor_kind_eq_dec a b then true else false.

Definition all : list t :=
  [UNARY_OPERATOR; BINARY_OPERATOR; CXX_NEW_EXPR; CXX_THROW_EXPR; CXX_METHOD;
   FUNCTION_DECL; TRANSLATION_UNIT; PARM_DECL; VAR_DECL; CLASS_DECL;
   COMPOUND_STMT; DECL_STMT; RETURN_STMT; UNEXPOSED_EXPR; DECL_REF_EXPR;
   CALL_EXPR; INTEGER_LITERAL; CXX_NULL_PTR_LITERAL_EXPR].

Definition name (k : t) : string :=
  match k with
  | UNARY_OPERATOR => "UNARY_OPERATOR"
  | BINARY_OPERATOR => "BINARY_OPERATOR"
  | CXX_NEW_EXPR => "CXX_NEW_EXPR"
  | CXX_THROW_EXPR => "CXX_THROW_EXPR"
  | CXX_METHOD => "CXX_METHOD"
  | FUNCTION_DECL => "FUNCTION_DECL"
  | TRANSLATION_UNIT => "TRANSLATION_UNIT"
  | PARM_DECL => "PARM_DECL"
  | VAR_DECL => "VAR_DECL"
  | CLASS_DECL => "CLASS_DECL"
  | COMPOUND_STMT => "COMPOUND_STMT"
  | DECL_STMT => "DECL_STMT"
  | RETURN_STMT => "RETURN_STMT"
  | UNEXPOSED_EXPR => "UNEXPOSED_EXPR"
  | DECL_REF_EXPR => "DECL_REF_EXPR"
  | CALL_EXPR => "CALL_EXPR"
  | INTEGER_LITERAL => "INTEGER_LITERAL"
  | CXX_NULL_PTR_LITERAL_EXPR => "CXX_NULL_PTR_LITERAL_EXPR"
  end.

(** [CursorKind.<attribute>], asked for by name. *)
Definition member (attribute : string) : result t :=
  match find (fun k => String.eqb (name k) attribute) all with
  | Some k => Ok k
  | None => Raise AttributeError
  end.

(** The kinds of the cursors of built-in operator expressions; the call of
    an overloaded operator is a [CALL_EXPR]. *)
Definition is_builtin_operator (k : t) : bool :=
  match k with
  | UNARY_OPERATOR | BINARY_OPERATOR => true
  | _ => false
  end.

End CursorKind.

(** [clang.cindex.TypeKind], the kind of a [Type]. *)
Module TypeKind.

Inductive t : Set :=
| INVALID
| POINTER
| LVALUEREFERENCE
| RVALUEREFERENCE
| INT
| VOID
| RECORD.

Definition type_kind_eq_dec (a b : t) : {a = b} + {a <> b}.
Proof. decide equality. Defined.

Definition eqb (a b : t) : bool := if type_kind_eq_dec a b then true else false.

End TypeKind.

(** The enumeration members that [==] and [in] compare.  A member of one
    enumeration is never equal to a member of another one. *)
Inductive KindValue : Set :=
| OfCursorKind (k : CursorKind.t)
| OfTypeKind (k : TypeKind.t).

Definition py_eq (a b : KindValue) : bool :=
  match a, b with
  | OfCursorKind x, OfCursorKind y => CursorKind.eqb x y
  | OfTypeKind x, OfTypeKind y => TypeKind.eqb x y
  | _, _ => false
  end.

(** [x in l] *)
Definition py_in (x : KindValue) (l : list KindValue) : bool :=
  existsb (py_eq x) l.

(** [clang.cindex.Type], as far as the scanner reads it. *)
Module CType.

Record t : Set := mk {
  kind : TypeKind.t;
  is_const_qualified : bool
}.

(** [<type>.canonical].  A [Type] has the method [get_canonical()] and no
    attribute [canonical]: reading it raises [AttributeError]. *)
Definition canonical (ty : t) : result t := Raise AttributeError.

End CType.

Module SourceLocation.

Record t : Set := mk {
  file : string;   (* [.file.name] *)
  line : Z;
  column : Z
}.

End SourceLocation.

Module SourceRange.

Record t : Set := mk {
  start : SourceLocation.t;
  end_ : SourceLocation.t
}.

End SourceRange.

(** [clang.cindex.Cursor]: one node of the tree, with the answers the scanner
    asks of it. *)
Module Cursor.

Unset Elimination Schemes.

Inductive t : Set := mk {
  kind : CursorKind.t;
  spelling : string;
  (* [cursor.type.get_pointee()] *)
  type_pointee : CType.t;
  (* [cursor.canonical.type.get_pointee()] *)
  canonical_type_pointee : CType.t;
  extent : SourceRange.t;
  location : SourceLocation.t;
  children : list t
}.

Set Elimination Schemes.

(** [cursor.canonical.spelling].  libclang spells a declaration, or an
    expression that refers to one, by the name of the declaration; the
    cursor of a built-in operator expression refers to none and its
    spelling is empty. *)
Definition canonical_spelling (c : t) : string :=
  if CursorKind.is_builtin_operator (kind c) then "" else spelling c.

(** [cursor.get_children()] *)
Definition get_children (c : t) : list t := children c.

End Cursor.

Module TranslationUnit.

Record t : Set := mk {
  spelling : string;
  cursor : Cursor.t
}.

End TranslationUnit.

(** [@dataclass class SideEffectInfo] *)
Module SideEffectInfo.

Record t : Set := mk {
  kind : SideEffectKind.t;
  location : SourceRange.t;
  code : string
}.

End SideEffectInfo.

(** The files on disk: the content of each path that can be opened. *)
Definition FileSystem : Set := string -> option string.

(** [with Path(filename).open("r") as file: content = file.read()] *)
Definition read_file (fs : FileSystem) (filename : string) : result string :=
  match fs filename with
  | Some content => Ok content
  | None => Raise FileNotFoundError
  end.


(** ** The scanner *)

Import CursorKind.
Import SideEffectKind.

Section Scanner.

(** The files the process can read. *)
Variable fs : FileSystem.

(** [range(a, b)] walked by the loop of [full_name_from_cursor]: every index
    [l] appends a space and the stripped line [l]. *)
Fixpoint append_lines (lines : list string) (ls : list Z) (full_name : string)
  : result string :=
  match ls with
  | [] => Ok full_name
  | l :: ls' =>
      ln <- Py.index lines l ;;
      append_lines lines ls' (full_name ++ " " ++ Py.strip ln)%string
  end.

Definition full_name_from_cursor (cursor : Cursor.t) (filename : string)
  : result string :=
  content <- read_file fs filename ;;
  let extent := Cursor.extent cursor in
  let start := SourceRange.start extent in
  let end_ := SourceRange.end_ extent in
  full_name <-
    (if SourceLocation.line start =? SourceLocation.line end_ then
       ln <- Py.index (Py.splitlines content)
               (SourceLocation.line (Cursor.location cursor) - 1) ;;
       Ok (Py.strip (Py.slice ln (SourceLocation.column start - 1)
                                 (SourceLocation.column end_ - 1)))
     else
       first <- Py.index (Py.splitlines content) (SourceLocation.line start - 1) ;;
       full_name <- append_lines (Py.splitlines content)
                      (Py.range (SourceLocation.line start)
                                (SourceLocation.line end_ - 1))
                      (Py.strip first) ;;
       last <- Py.index (Py.splitlines content) (SourceLocation.line end_ - 1) ;;
       Ok (full_name ++ " " ++ Py.strip last)%string) ;;
  if Py.endswith full_name ";" then Ok (Py.strip (Py.drop_last full_name))
  else Ok full_name.

(** [has_side_effects]: the four guarded returns, then the loop over the
    children, which returns the first result that is not [None]. *)
Fixpoint has_side_effects (cursor : Cursor.t)
    (translation_unit : TranslationUnit.t) {struct cursor}
  : result (option SideEffectInfo.t) :=
  let found (kind : SideEffectKind.t) : result (option SideEffectInfo.t) :=
    code <- full_name_from_cursor cursor
              (TranslationUnit.spelling translation_unit) ;;
    Ok (Some (SideEffectInfo.mk kind (Cursor.extent cursor) code)) in
  let search : result (option SideEffectInfo.t) :=
    (fix loop (cs : list Cursor.t) : result (option SideEffectInfo.t) :=
       match cs with
       | [] => Ok None
       | child :: rest =>
           side_effect <- has_side_effects child translation_unit ;;
           match side_effect with
           | Some _ => Ok side_effect
           | None => loop rest
           end
       end) (Cursor.get_children cursor) in
  if CursorKind.eqb (Cursor.kind cursor) UNARY_OPERATOR then
    if String.eqb (Cursor.canonical_spelling cursor) "operator*" then
      pointee_type <- CType.canonical (Cursor.type_pointee cursor) ;;
      if negb (CType.is_const_qualified pointee_type) then
        found DEREFERENCE_NON_CONST_POINTER
      else search
    else search
  else if CursorKind.eqb (Cursor.kind cursor) BINARY_OPERATOR then
    if existsb (String.eqb (Cursor.canonical_spelling cursor))
         ["operator="; "operator&="] then
      lhs_type <- CType.canonical (Cursor.canonical_type_pointee cursor) ;;
      pointer_type <- CursorKind.member "POINTER_TYPE" ;;
      lvalue_reference <- CursorKind.member "LVALUE_REFERENCE" ;;
      if py_in (OfTypeKind (CType.kind lhs_type))
           [OfCursorKind pointer_type; OfCursorKind lvalue_reference] then
        found ASSIGN_TO_POINTER_OR_REFERENCE
      else search
    else search
  else if CursorKind.eqb (Cursor.kind cursor) CXX_NEW_EXPR then
    found DYNAMIC_MEMORY_ALLOCATION
  else if CursorKind.eqb (Cursor.kind cursor) CXX_THROW_EXPR then
    found THROW_EXCEPTION
  else search.

(** The loop of [scan_function]; [side_effects] is the list built so far. *)
Fixpoint scan_loop (cs : list Cursor.t) (translation_unit : TranslationUnit.t)
    (side_effects : list SideEffectInfo.t) : result (list SideEffectInfo.t) :=
  match cs with
  | [] => Ok side_effects
  | child :: rest =>
      side_effect <- has_side_effects child translation_unit ;;
      match side_effect with
      | Some se => scan_loop rest translation_unit (side_effects ++ [se])
      | None => scan_loop rest translation_unit side_effects
      end
  end.

Definition scan_function (cursor : Cursor.t)
    (translation_unit : TranslationUnit.t) : result (list SideEffectInfo.t) :=
  scan_loop (Cursor.get_children cursor) translation_unit [].

(** ** The report

    Standard output is the list of the lines printed so far; [print] adds one
    line at its end. *)

Definition print (line : string) (stdout : list string) : list string :=
  stdout ++ [line].

(** The body of the loop of [print_side_effect_info]: four lines for one
    side effect. *)
Definition print_side_effect (stdout : list string)
    (side_effect : SideEffectInfo.t) : list string :=
  let location := SideEffectInfo.location side_effect in
  let start_line := SourceLocation.line (SourceRange.start location) in
  let start_column := SourceLocation.column (SourceRange.start location) in
  let end_line := SourceLocation.line (SourceRange.end_ location) in
  let end_column := SourceLocation.column (SourceRange.end_ location) in
  let stdout :=
    print ("Side effect found: "
           ++ SideEffectKind.name (SideEffectInfo.kind side_effect))%string
      stdout in
  let stdout :=
    print ("Location: " ++ SourceLocation.file (SourceRange.start location)
           ++ ":" ++ Py.str_of_int start_line
           ++ ":" ++ Py.str_of_int start_column
           ++ " - " ++ Py.str_of_int end_line
           ++ ":" ++ Py.str_of_int end_column)%string
      stdout in
  let stdout :=
    print ("Code: " ++ SideEffectInfo.code side_effect)%string stdout in
  print "" stdout.

Definition print_side_effect_info (function_name : string)
    (side_effects : list SideEffectInfo.t) (stdout : list string)
  : list string :=
  fold_left print_side_effect side_effects
    (print ("Funciton: " ++ function_name)%string stdout).

(** The loop of [main] over the top-level cursors.  The state is the flag
    [no_side_effects] and the output so far; an exception of [scan_function]
    ends the run with the output printed until then. *)
Fixpoint main_loop (cursors : list Cursor.t)
    (translation_unit : TranslationUnit.t) (no_side_effects : bool)
    (stdout : list string) : list string * result bool :=
  match cursors with
  | [] => (stdout, Ok no_side_effects)
  | cursor :: rest =>
      if CursorKind.eqb (Cursor.kind cursor) CXX_METHOD
         || CursorKind.eqb (Cursor.kind cursor) FUNCTION_DECL then
        match scan_function cursor translation_unit with
        | Raise e => (stdout, Raise e)
        | Ok [] => main_loop rest translation_unit no_side_effects stdout
        | Ok side_effects =>
            main_loop rest translation_unit false
              (print_side_effect_info (Cursor.spelling cursor) side_effects
                 stdout)
        end
      else main_loop rest translation_unit no_side_effects stdout
  end.

(** [main], from the parsed translation unit on: the output and how the run
    ends. *)
Definition main (translation_unit : TranslationUnit.t)
  : list string * result unit :=
  let (stdout, r) :=
    main_loop (Cursor.get_children (TranslationUnit.cursor translation_unit))
      translation_unit true [] in
  match r with
  | Ok true => (print "No side effects found." stdout, Ok tt)
  | Ok false => (stdout, Ok tt)
  | Raise e => (stdout, Raise e)
  end.

End Scanner.

(** ** Reading [has_side_effects] branch by branch *)

(** The guards of the four returns of [has_side_effects], each on its own: a
    guard holds when its tests are passed without an exception. *)
Definition is_dereference (c : Cursor.t) : bool :=
  CursorKind.eqb (Cursor.kind c) UNARY_OPERATOR
  && String.eqb (Cursor.canonical_spelling c) "operator*"
  && match CType.canonical (Cursor.type_pointee c) with
     | Ok pointee_type => negb (CType.is_const_qualified pointee_type)
     | Raise _ => false
     end.

Definition is_assignment (c : Cursor.t) : bool :=
  CursorKind.eqb (Cursor.kind c) BINARY_OPERATOR
  && existsb (String.eqb (Cursor.canonical_spelling c))
       ["operator="; "operator&="]
  && match
       (lhs_type <- CType.canonical (Cursor.canonical_type_pointee c) ;;
        pointer_type <- CursorKind.member "POINTER_TYPE" ;;
        lvalue_reference <- CursorKind.member "LVALUE_REFERENCE" ;;
        Ok (py_in (OfTypeKind (CType.kind lhs_type))
              [OfCursorKind pointer_type; OfCursorKind lvalue_reference]))
     with
     | Ok b => b
     | Raise _ => false
     end.

Definition is_allocation (c : Cursor.t) : bool :=
  CursorKind.eqb (Cursor.kind c) CXX_NEW_EXPR.

Definition is_throw (c : Cursor.t) : bool :=
  CursorKind.eqb (Cursor.kind c) CXX_THROW_EXPR.

(** The tag of the return that [has_side_effects] takes at the node itself,
    in the order of the source; [None] when it goes on to the children. *)
Definition pattern (c : Cursor.t) : option SideEffectKind.t :=
  if is_dereference c then Some DEREFERENCE_NON_CONST_POINTER
  else if is_assignment c then Some ASSIGN_TO_POINTER_OR_REFERENCE
  else if is_allocation c then Some DYNAMIC_MEMORY_ALLOCATION
  else if is_throw c then Some THROW_EXCEPTION
  else None.

(** The [SideEffectInfo] built at a node that matches. *)
Definition found (fs : FileSystem) (c : Cursor.t) (tu : TranslationUnit.t)
    (kind : SideEffectKind.t) : result (option SideEffectInfo.t) :=
  code <- full_name_from_cursor fs c (TranslationUnit.spelling tu) ;;
  Ok (Some (SideEffectInfo.mk kind (Cursor.extent c) code)).

(** The loop of [has_side_effects] over the children. *)
Fixpoint search (fs : FileSystem) (cs : list Cursor.t)
    (tu : TranslationUnit.t) : result (option SideEffectInfo.t) :=
  match cs with
  | [] => Ok None
  | child :: rest =>
      side_effect <- has_side_effects fs child tu ;;
      match side_effect with
      | Some _ => Ok side_effect
      | None => search fs rest tu
      end
  end.

(** The nodes of a tree in pre-order, the root first. *)
Fixpoint preorder (c : Cursor.t) : list Cursor.t :=
  c :: (fix go (cs : list Cursor.t) : list Cursor.t :=
          match cs with
          | [] => []
          | child :: rest => preorder child ++ go rest
          end) (Cursor.children c).

(** The nodes below a cursor: the ones [scan_function] looks at. *)
Definition descendants (c : Cursor.t) : list Cursor.t :=
  flat_map preorder (Cursor.get_children c).

Definition to_list {A : Type} (o : option A) : list A :=
  match o with
  | Some x => [x]
  | None => []
  end.

Section Cursor_induction.

Variable P : Cursor.t -> Prop.
Hypothesis step : forall c, Forall P (Cursor.children c) -> P c.

Fixpoint cursor_ind (c : Cursor.t) : P c :=
  step c
    (match c as c0 return Forall P (Cursor.children c0) with
     | Cursor.mk _ _ _ _ _ _ cs =>
         (fix go (l : list Cursor.t) : Forall P l :=
            match l with
            | [] => Forall_nil P
            | x :: l' => Forall_cons x (cursor_ind x) (go l')
            end) cs
     end).

End Cursor_induction.


(** The findings of a list of children: the loop of [scan_function] without
    its accumulator. *)
Fixpoint collect (fs : FileSystem) (tu : TranslationUnit.t)
    (cs : list Cursor.t) : result (list SideEffectInfo.t) :=
  match cs with
  | [] => Ok []
  | child :: rest =>
      side_effect <- has_side_effects fs child tu ;;
      l <- collect fs tu rest ;;
      Ok (to_list side_effect ++ l)
  end.

(** How many of the four guards hold at a node. *)
Definition guards_holding (c : Cursor.t) : nat :=
  (Nat.b2n (is_dereference c) + Nat.b2n (is_assignment c)
   + Nat.b2n (is_allocation c) + Nat.b2n (is_throw c))%nat.

(** ** Reading [full_name_from_cursor] line by line *)

(** Line [n] of a file, lines counted from 1. *)
Definition line_at (lines : list string) (n : Z) : string :=
  nth (Z.to_nat (n - 1)) lines "".

(** Lines [a] to [b] of a file, both included. *)
Definition lines_between (lines : list string) (a b : Z) : list string :=
  map (line_at lines) (Py.range a (b + 1)).

(** The end of [full_name_from_cursor]: one final semicolon is removed, and
    the rest is stripped once more. *)
Definition strip_semicolon (s : string) : string :=
  if Py.endswith s ";" then Py.strip (Py.drop_last s) else s.

(** The start, end and location lines of a cursor are lines of the file. *)
Definition in_file (lines : list string) (c : Cursor.t) : Prop :=
  let n := Z.of_nat (List.length lines) in
  1 <= SourceLocation.line (SourceRange.start (Cursor.extent c)) <= n
  /\ 1 <= SourceLocation.line (SourceRange.end_ (Cursor.extent c)) <= n
  /\ 1 <= SourceLocation.line (Cursor.location c) <= n.

(** The code text worded as the specification has it, to compare with
    [full_name_from_cursor]: on one line the columns from start to end; on
    several lines the start line from the start column on, the interior
    lines in full and the end line up to the end column, joined by single
    spaces; in both cases without one final semicolon. *)
Definition spec_code_text (lines : list string) (r : SourceRange.t) : string :=
  let start := SourceRange.start r in
  let end_ := SourceRange.end_ r in
  let first := line_at lines (SourceLocation.line start) in
  let last := line_at lines (SourceLocation.line end_) in
  let text :=
    if SourceLocation.line start =? SourceLocation.line end_ then
      Py.slice first (SourceLocation.column start - 1)
        (SourceLocation.column end_ - 1)
    else
      String.concat " "
        (Py.slice first (SourceLocation.column start - 1) (Py.len first)
         :: map (line_at lines)
              (Py.range (SourceLocation.line start + 1)
                 (SourceLocation.line end_))
         ++ [Py.slice last 0 (SourceLocation.column end_ - 1)]) in
  if Py.endswith text ";" then Py.drop_last text else text.

(** ** Reading [main] function by function *)

Definition summary_line : string := "No side effects found.".

(** The top-level cursors that [main] scans. *)
Definition is_function (c : Cursor.t) : bool :=
  CursorKind.eqb (Cursor.kind c) CXX_METHOD
  || CursorKind.eqb (Cursor.kind c) FUNCTION_DECL.

Definition functions (tu : TranslationUnit.t) : list Cursor.t :=
  filter is_function (Cursor.get_children (TranslationUnit.cursor tu)).

(** The findings of a function; none when the scan raises. *)
Definition findings_of (fs : FileSystem) (tu : TranslationUnit.t)
    (c : Cursor.t) : list SideEffectInfo.t :=
  match scan_function fs c tu with
  | Ok l => l
  | Raise _ => []
  end.

Definition has_findings (fs : FileSystem) (tu : TranslationUnit.t)
    (c : Cursor.t) : bool :=
  match findings_of fs tu c with
  | [] => false
  | _ :: _ => true
  end.

(** The functions with a finding, in the order of the file. *)
Definition reported (fs : FileSystem) (tu : TranslationUnit.t)
  : list Cursor.t :=
  filter (has_findings fs tu) (functions tu).

(** The lines printed for one function. *)
Definition block (fs : FileSystem) (tu : TranslationUnit.t) (c : Cursor.t)
  : list string :=
  print_side_effect_info (Cursor.spelling c) (findings_of fs tu c) [].

(** No line of a block starts like the summary line. *)
Definition starts_with_N (s : string) : bool :=
  match s with
  | String c _ => Ascii.eqb c "N"
  | EmptyString => false
  end.
(** ** Example trees

    The trees libclang hands out for small C++ files, built by hand: a
    function declaration has its parameters and then its body, a compound
    statement, as children. *)

Definition nl : string := String (ascii_of_nat 10) "".

Definition loc (path : string) (l c : Z) : SourceLocation.t :=
  SourceLocation.mk path l c.

Definition range (path : string) (l1 c1 l2 c2 : Z) : SourceRange.t :=
  SourceRange.mk (loc path l1 c1) (loc path l2 c2).

Definition no_type : CType.t := CType.mk TypeKind.INVALID false.
Definition int_pointer_type : CType.t := CType.mk TypeKind.POINTER false.

(** A node whose type has no pointee and whose location is the start of its
    extent. *)
Definition node (k : CursorKind.t) (name : string) (r : SourceRange.t)
    (cs : list Cursor.t) : Cursor.t :=
  Cursor.mk k name no_type no_type r (SourceRange.start r) cs.

Definition one_file (path content : string) : FileSystem :=
  fun p => if String.eqb p path then Some content else None.

(** The function [f] of the end-to-end scenario. *)
Module Example_f.

Definition path : string := "f.cpp".

Definition source : string :=
  ("void f(int* p) {" ++ nl ++
   "    int x = *p;" ++ nl ++
   "    int* q = nullptr;" ++ nl ++
   "    int* r = new int(5);" ++ nl ++
   "    throw 1;" ++ nl ++
   "}" ++ nl)%string.

Definition fs : FileSystem := one_file path source.

(** [*p], at 2:13 - 2:15: the built-in dereference operator on an [int*].
    The expression has type [int], which has no pointee. *)
Definition deref_p : Cursor.t :=
  Cursor.mk UNARY_OPERATOR "" no_type no_type
    (range path 2 13 2 15) (loc path 2 13)
    [node UNEXPOSED_EXPR "p" (range path 2 14 2 15)
       [node DECL_REF_EXPR "p" (range path 2 14 2 15) []]].

Definition stmt_x : Cursor.t :=
  node DECL_STMT "" (range path 2 5 2 16)
    [node VAR_DECL "x" (range path 2 5 2 15)
       [node UNEXPOSED_EXPR "" (range path 2 13 2 15) [deref_p]]].

Definition stmt_q : Cursor.t :=
  node DECL_STMT "" (range path 3 5 3 22)
    [node VAR_DECL "q" (range path 3 5 3 21)
       [node UNEXPOSED_EXPR "" (range path 3 14 3 21)
          [node CXX_NULL_PTR_LITERAL_EXPR "" (range path 3 14 3 21) []]]].

Definition new_int : Cursor.t :=
  node CXX_NEW_EXPR "" (range path 4 14 4 24)
    [node INTEGER_LITERAL "" (range path 4 22 4 23) []].

Definition stmt_r : Cursor.t :=
  node DECL_STMT "" (range path 4 5 4 25)
    [node VAR_DECL "r" (range path 4 5 4 24) [new_int]].

Definition throw_1 : Cursor.t :=
  node CXX_THROW_EXPR "" (range path 5 5 5 12)
    [node INTEGER_LITERAL "" (range path 5 11 5 12) []].

Definition body : Cursor.t :=
  node COMPOUND_STMT "" (range path 1 16 6 2)
    [stmt_x; stmt_q; stmt_r; throw_1].

Definition parm_p : Cursor.t := node PARM_DECL "p" (range path 1 8 1 14) [].

Definition f : Cursor.t :=
  node FUNCTION_DECL "f" (range path 1 1 6 2) [parm_p; body].

Definition tu : TranslationUnit.t :=
  TranslationUnit.mk path (node TRANSLATION_UNIT path (range path 1 1 6 2) [f]).


Definition finding_new : SideEffectInfo.t :=
  SideEffectInfo.mk DYNAMIC_MEMORY_ALLOCATION (range path 4 14 4 24)
    "new int(5)".

Definition finding_throw : SideEffectInfo.t :=
  SideEffectInfo.mk THROW_EXCEPTION (range path 5 5 5 12) "throw 1".

End Example_f.

(** Two throw statements in one body. *)
Module Example_two_throws.

Definition path : string := "g.cpp".

Definition source : string :=
  ("void g() {" ++ nl ++
   "    throw 1;" ++ nl ++
   "    throw 2;" ++ nl ++
   "}" ++ nl)%string.

Definition fs : FileSystem := one_file path source.

Definition throw_1 : Cursor.t :=
  node CXX_THROW_EXPR "" (range path 2 5 2 12)
    [node INTEGER_LITERAL "" (range path 2 11 2 12) []].

Definition throw_2 : Cursor.t :=
  node CXX_THROW_EXPR "" (range path 3 5 3 12)
    [node INTEGER_LITERAL "" (range path 3 11 3 12) []].

Definition body : Cursor.t :=
  node COMPOUND_STMT "" (range path 1 10 4 2) [throw_1; throw_2].

Definition g : Cursor.t := node FUNCTION_DECL "g" (range path 1 1 4 2) [body].

Definition tu : TranslationUnit.t :=
  TranslationUnit.mk path (node TRANSLATION_UNIT path (range path 1 1 4 2) [g]).

Definition finding_1 : SideEffectInfo.t :=
  SideEffectInfo.mk THROW_EXCEPTION (range path 2 5 2 12) "throw 1".


End Example_two_throws.

(** One declaration statement with two new-expressions, side by side. *)
Module Example_two_news.

Definition path : string := "n.cpp".

Definition source : string :=
  ("void n() {" ++ nl ++
   "    int *a = new int(1), *b = new int(2);" ++ nl ++
   "}" ++ nl)%string.

Definition fs : FileSystem := one_file path source.

Definition new_1 : Cursor.t :=
  node CXX_NEW_EXPR "" (range path 2 14 2 24)
    [node INTEGER_LITERAL "" (range path 2 22 2 23) []].

Definition new_2 : Cursor.t :=
  node CXX_NEW_EXPR "" (range path 2 31 2 41)
    [node INTEGER_LITERAL "" (range path 2 39 2 40) []].

Definition stmt : Cursor.t :=
  node DECL_STMT "" (range path 2 5 2 42)
    [node VAR_DECL "a" (range path 2 5 2 24) [new_1];
     node VAR_DECL "b" (range path 2 26 2 41) [new_2]].

Definition body : Cursor.t :=
  node COMPOUND_STMT "" (range path 1 10 3 2) [stmt].

Definition n : Cursor.t := node FUNCTION_DECL "n" (range path 1 1 3 2) [body].

Definition tu : TranslationUnit.t :=
  TranslationUnit.mk path (node TRANSLATION_UNIT path (range path 1 1 3 2) [n]).

Definition finding_1 : SideEffectInfo.t :=
  SideEffectInfo.mk DYNAMIC_MEMORY_ALLOCATION (range path 2 14 2 24)
    "new int(1)".

End Example_two_news.

(** The built-in assignment to an [int**]: the expression has the type of
    its left-hand side, whose pointee is a pointer. *)
Module Example_assign.

Definition path : string := "h.cpp".

Definition source : string :=
  ("void h(int** pp, int** qq) {" ++ nl ++
   "    pp = qq;" ++ nl ++
   "}" ++ nl)%string.

Definition fs : FileSystem := one_file path source.

Definition assign : Cursor.t :=
  Cursor.mk BINARY_OPERATOR "" int_pointer_type int_pointer_type
    (range path 2 5 2 12) (loc path 2 8)
    [node DECL_REF_EXPR "pp" (range path 2 5 2 7) [];
     node UNEXPOSED_EXPR "qq" (range path 2 10 2 12)
       [node DECL_REF_EXPR "qq" (range path 2 10 2 12) []]].

Definition body : Cursor.t :=
  node COMPOUND_STMT "" (range path 1 28 3 2) [assign].

Definition h : Cursor.t :=
  node FUNCTION_DECL "h" (range path 1 1 3 2)
    [node PARM_DECL "pp" (range path 1 8 1 16) [];
     node PARM_DECL "qq" (range path 1 18 1 26) [];
     body].

Definition tu : TranslationUnit.t :=
  TranslationUnit.mk path (node TRANSLATION_UNIT path (range path 1 1 3 2) [h]).

End Example_assign.

(** A new-expression that starts on one line and ends on the next. *)
Module Example_multiline.

Definition path : string := "m.cpp".

Definition source : string :=
  ("void m() {" ++ nl ++
   "    int* r = new int(" ++ nl ++
   "        5);" ++ nl ++
   "}" ++ nl)%string.

Definition fs : FileSystem := one_file path source.

Definition new_int : Cursor.t :=
  node CXX_NEW_EXPR "" (range path 2 14 3 11)
    [node INTEGER_LITERAL "" (range path 3 9 3 10) []].

Definition tu : TranslationUnit.t :=
  TranslationUnit.mk path
    (node TRANSLATION_UNIT path (range path 1 1 4 2)
       [node FUNCTION_DECL "m" (range path 1 1 4 2)
          [node COMPOUND_STMT "" (range path 1 10 4 2)
             [node DECL_STMT "" (range path 2 5 3 12)
                [node VAR_DECL "r" (range path 2 5 3 11) [new_int]]]]]).

End Example_multiline.

(** The statement [throw expr;]. *)
Module Example_throw_expr.

Definition path : string := "t.cpp".

Definition source : string :=
  ("void t(int expr) {" ++ nl ++
   "    throw expr;" ++ nl ++
   "}" ++ nl)%string.

Definition fs : FileSystem := one_file path source.

Definition throw_expr : Cursor.t :=
  node CXX_THROW_EXPR "" (range path 2 5 2 15)
    [node UNEXPOSED_EXPR "expr" (range path 2 11 2 15)
       [node DECL_REF_EXPR "expr" (range path 2 11 2 15) []]].

Definition t : Cursor.t :=
  node FUNCTION_DECL "t" (range path 1 1 3 2)
    [node PARM_DECL "expr" (range path 1 8 1 16) [];
     node COMPOUND_STMT "" (range path 1 18 3 2) [throw_expr]].

Definition tu : TranslationUnit.t :=
  TranslationUnit.mk path (node TRANSLATION_UNIT path (range path 1 1 3 2) [t]).

End Example_throw_expr.

(** A function defined in an included header: its lines are lines of the
    header, and the main file has one line only. *)
Module Example_header.

Definition path : string := "main.cpp".
Definition header : string := "util.hpp".

Definition quote : string := String (ascii_of_nat 34) "".

Definition source : string :=
  ("#include " ++ quote ++ "util.hpp" ++ quote ++ nl)%string.

Definition header_source : string :=
  ("inline void fail() {" ++ nl ++
   "    throw 1;" ++ nl ++
   "}" ++ nl)%string.

Definition fs : FileSystem :=
  fun p =>
    if String.eqb p path then Some source
    else if String.eqb p header then Some header_source
    else None.

Definition throw_1 : Cursor.t :=
  node CXX_THROW_EXPR "" (range header 2 5 2 12)
    [node INTEGER_LITERAL "" (range header 2 11 2 12) []].

Definition fail : Cursor.t :=
  node FUNCTION_DECL "fail" (range header 1 1 3 2)
    [node COMPOUND_STMT "" (range header 1 20 3 2) [throw_1]].

Definition tu : TranslationUnit.t :=
  TranslationUnit.mk path
    (node TRANSLATION_UNIT path (range path 1 1 1 20) [fail]).

End Example_header.

(** A parameter with a default argument that allocates. *)
Module Example_default_arg.

Definition path : string := "d.cpp".

Definition source : string :=
  ("void d(int* p = new int(1)) {" ++ nl ++
   "    throw 2;" ++ nl ++
   "}" ++ nl)%string.

Definition fs : FileSystem := one_file path source.

Definition new_int : Cursor.t :=
  node CXX_NEW_EXPR "" (range path 1 17 1 27)
    [node INTEGER_LITERAL "" (range path 1 25 1 26) []].

Definition parm_p : Cursor.t :=
  node PARM_DECL "p" (range path 1 8 1 27) [new_int].

Definition throw_2 : Cursor.t :=
  node CXX_THROW_EXPR "" (range path 2 5 2 12)
    [node INTEGER_LITERAL "" (range path 2 11 2 12) []].

Definition body : Cursor.t :=
  node COMPOUND_STMT "" (range path 1 29 3 2) [throw_2].

Definition d : Cursor.t :=
  node FUNCTION_DECL "d" (range path 1 1 3 2) [parm_p; body].

Definition tu : TranslationUnit.t :=
  TranslationUnit.mk path (node TRANSLATION_UNIT path (range path 1 1 3 2) [d]).

Definition finding_new : SideEffectInfo.t :=
  SideEffectInfo.mk DYNAMIC_MEMORY_ALLOCATION (range path 1 17 1 27)
    "new int(1)".

Definition finding_throw : SideEffectInfo.t :=
  SideEffectInfo.mk THROW_EXCEPTION (range path 2 5 2 12) "throw 2".

End Example_default_arg.

(** A function without any of the four expressions. *)
Module Example_pure.

Definition path : string := "id.cpp".

Definition source : string :=
  ("int id(int a) {" ++ nl ++
   "    return a;" ++ nl ++
   "}" ++ nl)%string.

Definition fs : FileSystem := one_file path source.

Definition id : Cursor.t :=
  node FUNCTION_DECL "id" (range path 1 1 3 2)
    [node PARM_DECL "a" (range path 1 8 1 13) [];
     node COMPOUND_STMT "" (range path 1 15 3 2)
       [node RETURN_STMT "" (range path 2 5 2 13)
          [node UNEXPOSED_EXPR "a" (range path 2 12 2 13)
             [node DECL_REF_EXPR "a" (range path 2 12 2 13) []]]]].

Definition tu : TranslationUnit.t :=
  TranslationUnit.mk path
    (node TRANSLATION_UNIT path (range path 1 1 3 2) [id]).

End Example_pure.

(** ** The first match and the shape of a text *)

(** A node at which [has_side_effects] returns without looking at the
    children. *)
Definition matches (c : Cursor.t) : bool :=
  match pattern c with
  | Some _ => true
  | None => false
  end.

(** The first node of a tree, in pre-order, that matches. *)
Definition first_match (c : Cursor.t) : option Cursor.t :=
  find matches (preorder c).

(** What [has_side_effects] builds at a node, by the guard that holds there. *)
Definition finding_at (fs : FileSystem) (tu : TranslationUnit.t)
    (d : Cursor.t) : result (option SideEffectInfo.t) :=
  match pattern d with
  | Some kind => found fs d tu kind
  | None => Ok None
  end.

(** A string without any of the characters at which [splitlines] cuts. *)
Fixpoint one_line (s : string) : bool :=
  match s with
  | EmptyString => true
  | String c rest => negb (Py.is_line_boundary c) && one_line rest
  end.

(** A string that does not start with white space. *)
Definition no_leading_space (s : string) : Prop :=
  match s with
  | EmptyString => True
  | String c _ => Py.is_space c = false
  end.

(** The position a list index stands for: a negative one counts from the
    end. *)
Definition wrap_index (n i : Z) : Z := if i <? 0 then i + n else i.

(** A class whose method is defined inside the class body: the method is a
    child of the class, not of the translation unit. *)
Module Example_class.

Definition path : string := "w.cpp".

Definition source : string :=
  ("struct W {" ++ nl ++
   "    void boom() { throw 1; }" ++ nl ++
   "};" ++ nl)%string.

Definition fs : FileSystem := one_file path source.

Definition throw_1 : Cursor.t :=
  node CXX_THROW_EXPR "" (range path 2 19 2 26)
    [node INTEGER_LITERAL "" (range path 2 25 2 26) []].

Definition boom : Cursor.t :=
  node CXX_METHOD "boom" (range path 2 5 2 29)
    [node COMPOUND_STMT "" (range path 2 17 2 29) [throw_1]].

Definition tu : TranslationUnit.t :=
  TranslationUnit.mk path
    (node TRANSLATION_UNIT path (range path 1 1 3 3)
       [node CLASS_DECL "W" (range path 1 1 3 2) [boom]]).

End Example_class.

(** A function of an included header whose parameter has a default argument
    on line 1 and whose body throws on line 2; the main file has one line. *)
Module Example_lost.

Definition new_int : Cursor.t :=
  node CXX_NEW_EXPR "" (range Example_header.header 1 27 1 37)
    [node INTEGER_LITERAL "" (range Example_header.header 1 35 1 36) []].

Definition parm_p : Cursor.t :=
  node PARM_DECL "p" (range Example_header.header 1 18 1 37) [new_int].

Definition body : Cursor.t :=
  node COMPOUND_STMT "" (range Example_header.header 1 39 3 2)
    [Example_header.throw_1].

Definition fail : Cursor.t :=
  node FUNCTION_DECL "fail" (range Example_header.header 1 1 3 2)
    [parm_p; body].

End Example_lost.

(** A cursor without a source location: libclang gives it line 0. *)
Definition unlocated_throw : Cursor.t :=
  node CXX_THROW_EXPR "" (range Example_f.path 0 1 0 2) [].

(** The statement [throw expr;] of [Example_throw_expr], semicolon included. *)
Definition throw_statement : Cursor.t :=
  node CXX_THROW_EXPR "" (range Example_throw_expr.path 2 5 2 16) [].

(** A file that defines a function and then includes a header with a
    function that throws on its line 3; the file itself has two lines. *)
Module Example_partial.

Definition path : string := "p.cpp".
Definition header : string := "late.hpp".

Definition source : string :=
  ("void ok() { throw 0; }" ++ nl ++
   "#include " ++ Example_header.quote ++ "late.hpp" ++ Example_header.quote
   ++ nl)%string.

Definition fs : FileSystem := one_file path source.

Definition ok : Cursor.t :=
  node FUNCTION_DECL "ok" (range path 1 1 1 23)
    [node COMPOUND_STMT "" (range path 1 11 1 23)
       [node CXX_THROW_EXPR "" (range path 1 13 1 20)
          [node INTEGER_LITERAL "" (range path 1 19 1 20) []]]].

Definition late : Cursor.t :=
  node FUNCTION_DECL "late" (range header 1 1 4 2)
    [node COMPOUND_STMT "" (range header 2 1 4 2)
       [node CXX_THROW_EXPR "" (range header 3 5 3 12)
          [node INTEGER_LITERAL "" (range header 3 11 3 12) []]]].

Definition tu : TranslationUnit.t :=
  TranslationUnit.mk path
    (node TRANSLATION_UNIT path (range path 1 1 2 20) [ok; late]).

End Example_partial.

(** Decides the comparisons of two known cursor kinds in the goal. *)
Ltac eval_kind_tests :=
  repeat match goal with
    | |- context [CursorKind.eqb ?a ?b] =>
        let v := eval vm_compute in (CursorKind.eqb a b) in
        change (CursorKind.eqb a b) with v
    end;
  cbn [andb orb].

Section Scanner_facts.

Variable fs : FileSystem.
Variable tu : TranslationUnit.t.

Lemma search_loop (cs : list Cursor.t) :
  (fix loop (l : list Cursor.t) : result (option SideEffectInfo.t) :=
     match l with
     | [] => Ok None
     | child :: rest =>
         side_effect <- has_side_effects fs child tu ;;
         match side_effect with
         | Some _ => Ok side_effect
         | None => loop rest
         end
     end) cs = search fs cs tu.
Proof.
  induction cs as [|child rest IH]; [reflexivity|].
  cbn [search]. rewrite <- IH. reflexivity.
Qed.

Lemma has_side_effects_eq (c : Cursor.t) :
  has_side_effects fs c tu =
  match pattern c with
  | Some kind => found fs c tu kind
  | None => search fs (Cursor.get_children c) tu
  end.
Proof.
  destruct c as [k sp tp ctp ext loc cs].
  unfold pattern, is_dereference, is_assignment, is_allocation, is_throw.
  cbn [has_side_effects Cursor.kind Cursor.canonical_spelling
       Cursor.type_pointee Cursor.canonical_type_pointee Cursor.extent
       Cursor.get_children Cursor.children].
  destruct k; eval_kind_tests;
    cbn [CursorKind.is_builtin_operator String.eqb existsb andb orb];
    first [reflexivity | apply search_loop].
Qed.

Lemma preorder_eq (c : Cursor.t) :
  preorder c = c :: flat_map preorder (Cursor.get_children c).
Proof.
  destruct c; reflexivity.
Qed.

(** *** The guards *)

(** The spelling of a built-in operator is empty: the guards of the
    dereference and of the assignment hold at no node. *)
Lemma is_dereference_false (c : Cursor.t) : is_dereference c = false.
Proof.
  unfold is_dereference, Cursor.canonical_spelling.
  destruct (Cursor.kind c); reflexivity.
Qed.

Lemma is_assignment_false (c : Cursor.t) : is_assignment c = false.
Proof.
  unfold is_assignment, Cursor.canonical_spelling.
  destruct (Cursor.kind c); reflexivity.
Qed.

Lemma kind_eqb_eq (a b : CursorKind.t) : CursorKind.eqb a b = true <-> a = b.
Proof.
  unfold CursorKind.eqb. destruct (cursor_kind_eq_dec a b); split; congruence.
Qed.

Lemma pattern_cases (c : Cursor.t) (k : SideEffectKind.t) :
  pattern c = Some k ->
  (k = DEREFERENCE_NON_CONST_POINTER /\ is_dereference c = true)
  \/ (k = DYNAMIC_MEMORY_ALLOCATION /\ is_allocation c = true)
  \/ (k = THROW_EXCEPTION /\ is_throw c = true).
Proof.
  unfold pattern. rewrite is_assignment_false.
  destruct (is_dereference c); [intros [= <-]; auto|].
  destruct (is_allocation c); [intros [= <-]; auto|].
  destruct (is_throw c); [intros [= <-]; auto|discriminate].
Qed.

(** *** The loop over the children *)

Lemma search_none (cs : list Cursor.t) :
  Forall (fun c => has_side_effects fs c tu = Ok None) cs ->
  search fs cs tu = Ok None.
Proof.
  induction 1 as [|c rest Hc _ IH]; [reflexivity|].
  cbn [search]. rewrite Hc. exact IH.
Qed.


Lemma search_some (cs : list Cursor.t) (f : SideEffectInfo.t) :
  search fs cs tu = Ok (Some f) ->
  exists c, In c cs /\ has_side_effects fs c tu = Ok (Some f).
Proof.
  induction cs as [|c rest IH]; [discriminate|].
  cbn [search]. destruct (has_side_effects fs c tu) as [[g|]|e] eqn:Hc;
    cbn [bind]; intros H.
  - injection H as <-. exists c. split; [now left|exact Hc].
  - destruct (IH H) as (d & Hd & Hf). exists d. split; [now right|exact Hf].
  - discriminate.
Qed.

(** Where a result of [has_side_effects] comes from: a node of the tree whose
    own guard holds, with that node's extent and text. *)
Lemma has_side_effects_origin (c : Cursor.t) :
  forall f, has_side_effects fs c tu = Ok (Some f) ->
  exists d, In d (preorder c)
    /\ pattern d = Some (SideEffectInfo.kind f)
    /\ SideEffectInfo.location f = Cursor.extent d
    /\ full_name_from_cursor fs d (TranslationUnit.spelling tu)
       = Ok (SideEffectInfo.code f).
Proof.
  induction c as [c IH] using cursor_ind. intros f Hf.
  rewrite has_side_effects_eq in Hf. rewrite preorder_eq.
  destruct (pattern c) as [k|] eqn:Hp.
  - unfold found in Hf.
    destruct (full_name_from_cursor fs c _) as [code|e] eqn:Hcode;
      [|discriminate].
    cbn [bind] in Hf. injection Hf as <-.
    exists c. cbn. auto.
  - destruct (search_some _ Hf) as (child & Hin & Hchild).
    rewrite Forall_forall in IH.
    destruct (IH child Hin f Hchild) as (d & Hd & Hrest).
    exists d. split; [|exact Hrest].
    right. apply in_flat_map. exists child. auto.
Qed.

(** A tree none of whose nodes matches gives [None]. *)
Lemma has_side_effects_no_match (c : Cursor.t) :
  Forall (fun d => pattern d = None) (preorder c) ->
  has_side_effects fs c tu = Ok None.
Proof.
  induction c as [c IH] using cursor_ind. intros Hall.
  rewrite preorder_eq in Hall. inversion Hall as [|? ? Hc Hrest]; subst.
  rewrite has_side_effects_eq, Hc.
  apply search_none. rewrite Forall_forall in *.
  intros child Hin. apply IH; [exact Hin|].
  rewrite Forall_forall. intros d Hd. apply Hrest.
  apply in_flat_map. exists child. auto.
Qed.

(** *** The loop of [scan_function] *)

Lemma scan_loop_collect (cs : list Cursor.t) :
  forall acc,
  scan_loop fs cs tu acc = (l <- collect fs tu cs ;; Ok (acc ++ l)).
Proof.
  induction cs as [|child rest IH]; intros acc.
  - cbn. now rewrite app_nil_r.
  - cbn [scan_loop collect].
    destruct (has_side_effects fs child tu) as [[f|]|e]; cbn [bind to_list].
    + rewrite IH. destruct (collect fs tu rest) as [l|e]; cbn [bind]; [|reflexivity].
      now rewrite <- app_assoc.
    + rewrite IH. destruct (collect fs tu rest) as [l|e]; reflexivity.
    + reflexivity.
Qed.

Lemma scan_function_collect (c : Cursor.t) :
  scan_function fs c tu = collect fs tu (Cursor.get_children c).
Proof.
  unfold scan_function. rewrite scan_loop_collect.
  destruct (collect _ _ _); reflexivity.
Qed.

Lemma collect_app (a b : list Cursor.t) :
  collect fs tu (a ++ b) = (la <- collect fs tu a ;; lb <- collect fs tu b ;; Ok (la ++ lb)).
Proof.
  induction a as [|child rest IH]; cbn [app collect bind].
  - destruct (collect fs tu b); reflexivity.
  - destruct (has_side_effects fs child tu) as [o|e]; cbn [bind]; [|reflexivity].
    rewrite IH. destruct (collect fs tu rest) as [la|e]; cbn [bind]; [|reflexivity].
    destruct (collect fs tu b) as [lb|e]; cbn [bind]; [|reflexivity].
    now rewrite app_assoc.
Qed.

Lemma collect_none (cs : list Cursor.t) :
  Forall (fun c => has_side_effects fs c tu = Ok None) cs ->
  collect fs tu cs = Ok [].
Proof.
  induction 1 as [|c rest Hc _ IH]; [reflexivity|].
  cbn [collect]. rewrite Hc, IH. reflexivity.
Qed.

Lemma collect_In (cs : list Cursor.t) :
  forall l f, collect fs tu cs = Ok l -> In f l ->
  exists c, In c cs /\ has_side_effects fs c tu = Ok (Some f).
Proof.
  induction cs as [|child rest IH]; intros l f Hl Hf.
  - injection Hl as <-. destruct Hf.
  - cbn [collect] in Hl.
    destruct (has_side_effects fs child tu) as [o|e] eqn:Hc; [|discriminate].
    destruct (collect fs tu rest) as [l'|e]; [|discriminate].
    cbn [bind] in Hl. injection Hl as <-.
    apply in_app_or in Hf. destruct Hf as [Hf|Hf].
    + destruct o as [g|]; [|destruct Hf].
      destruct Hf as [<-|[]]. exists child. split; [now left|exact Hc].
    + destruct (IH l' f eq_refl Hf) as (c & Hin & Hcf).
      exists c. split; [now right|exact Hcf].
Qed.

(** One finding at most for each direct child. *)
Lemma collect_length (cs : list Cursor.t) :
  forall l, collect fs tu cs = Ok l -> (List.length l <= List.length cs)%nat.
Proof.
  induction cs as [|child rest IH]; intros l Hl.
  - injection Hl as <-. apply Nat.le_refl.
  - cbn [collect] in Hl.
    destruct (has_side_effects fs child tu) as [o|e]; [|discriminate].
    destruct (collect fs tu rest) as [l'|e]; [|discriminate].
    cbn [bind] in Hl. injection Hl as <-.
    rewrite length_app. specialize (IH l' eq_refl).
    destruct o; cbn [to_list List.length]; lia.
Qed.







Lemma scan_function_length (c : Cursor.t) (l : list SideEffectInfo.t) :
  scan_function fs c tu = Ok l ->
  (List.length l <= List.length (Cursor.get_children c))%nat.
Proof.
  rewrite scan_function_collect. apply collect_length.
Qed.

End Scanner_facts.

(** ** The text of a cursor *)

Section Text_facts.

Variable lines : list string.

Lemma index_in_range (i : Z) :
  0 <= i < Z.of_nat (List.length lines) ->
  Py.index lines i = Ok (nth (Z.to_nat i) lines "").
Proof.
  intros Hi. unfold Py.index.
  destruct (Z.ltb_spec i 0) as [Hneg|_]; [lia|].
  destruct (Z.leb_spec 0 i) as [_|Hneg]; [|lia].
  destruct (Z.ltb_spec i (Z.of_nat (List.length lines))) as [_|Hbig]; [|lia].
  cbn [andb].
  destruct (nth_error lines (Z.to_nat i)) as [x|] eqn:Hnth.
  - now rewrite (nth_error_nth _ _ _ Hnth).
  - apply nth_error_None in Hnth. lia.
Qed.

Lemma index_line (n : Z) :
  1 <= n <= Z.of_nat (List.length lines) ->
  Py.index lines (n - 1) = Ok (line_at lines n).
Proof.
  intros Hn. unfold line_at. apply index_in_range. lia.
Qed.

Lemma range_empty (a b : Z) : b <= a -> Py.range a b = [].
Proof.
  intros H. unfold Py.range.
  replace (Z.to_nat (b - a)) with 0%nat by lia. reflexivity.
Qed.

Lemma range_cons (a b : Z) : a < b -> Py.range a b = a :: Py.range (a + 1) b.
Proof.
  intros H. unfold Py.range.
  replace (Z.to_nat (b - a)) with (S (Z.to_nat (b - (a + 1)))) by lia.
  cbn [seq map]. f_equal; [lia|].
  rewrite <- seq_shift, map_map.
  apply map_ext. intros k. lia.
Qed.

Lemma range_snoc (a b : Z) :
  a < b -> Py.range a b = Py.range a (b - 1) ++ [b - 1].
Proof.
  intros H. unfold Py.range.
  replace (Z.to_nat (b - a)) with (S (Z.to_nat (b - 1 - a))) by lia.
  rewrite seq_S, map_app. cbn [map Nat.add]. do 2 f_equal. lia.
Qed.

Lemma range_shift (a b : Z) :
  Py.range (a + 1) (b + 1) = map (fun l => l + 1) (Py.range a b).
Proof.
  unfold Py.range. rewrite map_map.
  replace (b + 1 - (a + 1)) with (b - a) by lia.
  apply map_ext. intros k. lia.
Qed.

Lemma in_range (a b l : Z) : In l (Py.range a b) -> a <= l < b.
Proof.
  unfold Py.range. rewrite in_map_iff. intros (k & <- & Hk).
  apply in_seq in Hk. lia.
Qed.

(** The loop over the interior lines, when every index is a line. *)
Lemma append_lines_in_range (ls : list Z) :
  forall full_name,
  Forall (fun l => 0 <= l < Z.of_nat (List.length lines)) ls ->
  append_lines lines ls full_name =
  Ok (fold_left (fun acc piece => (acc ++ " " ++ piece)%string)
        (map (fun l => Py.strip (line_at lines (l + 1))) ls) full_name).
Proof.
  induction ls as [|l ls IH]; intros full_name Hall; [reflexivity|].
  inversion Hall as [|? ? Hl Hls]; subst.
  cbn [append_lines map fold_left].
  rewrite (index_in_range Hl). cbn [bind].
  rewrite (IH _ Hls). unfold line_at.
  now replace (l + 1 - 1) with l by lia.
Qed.

End Text_facts.

Lemma string_app_assoc (a b c : string) :
  ((a ++ b) ++ c = a ++ (b ++ c))%string.
Proof.
  induction a as [|x a IH]; cbn; [reflexivity|now rewrite IH].
Qed.

(** Appending the pieces one by one with a space before each is joining them
    with single spaces. *)
Lemma fold_left_join (pieces : list string) :
  forall first,
  fold_left (fun acc piece => (acc ++ " " ++ piece)%string) pieces first
  = String.concat " " (first :: pieces).
Proof.
  induction pieces as [|p ps IH]; intros first; [reflexivity|].
  cbn [fold_left]. rewrite IH.
  destruct ps as [|q ps]; cbn [String.concat].
  - reflexivity.
  - now rewrite !string_app_assoc.
Qed.

Lemma concat_snoc (pieces : list string) (first last : string) :
  (String.concat " " (first :: pieces) ++ " " ++ last)%string
  = String.concat " " (first :: pieces ++ [last]).
Proof.
  revert first. induction pieces as [|p ps IH]; intros first.
  - reflexivity.
  - change (String.concat " " (first :: p :: ps))
      with (first ++ " " ++ String.concat " " (p :: ps))%string.
    change (String.concat " " (first :: (p :: ps) ++ [last]))
      with (first ++ " " ++ String.concat " " (p :: ps ++ [last]))%string.
    rewrite <- IH. now rewrite !string_app_assoc.
Qed.

Section Full_name_facts.

Variable fs : FileSystem.
Variable filename content : string.
Hypothesis file_content : fs filename = Some content.

(** C4 (amended).  The text of a cursor whose lines are lines of the file:
    on one line, the columns from start to end of the location line, with
    the white space around them stripped; on several lines, the whole start
    line, the whole interior lines and the whole end line, each stripped,
    joined by single spaces, whatever the columns; then one final semicolon
    is removed and the rest stripped once more. *)
Theorem full_name_from_cursor_text (c : Cursor.t) :
  in_file (Py.splitlines content) c ->
  SourceLocation.line (SourceRange.start (Cursor.extent c))
  <= SourceLocation.line (SourceRange.end_ (Cursor.extent c)) ->
  full_name_from_cursor fs c filename =
  Ok (strip_semicolon
        (if SourceLocation.line (SourceRange.start (Cursor.extent c))
            =? SourceLocation.line (SourceRange.end_ (Cursor.extent c))
         then
           Py.strip
             (Py.slice (line_at (Py.splitlines content)
                   (SourceLocation.line (Cursor.location c)))
                (SourceLocation.column (SourceRange.start (Cursor.extent c)) - 1)
                (SourceLocation.column (SourceRange.end_ (Cursor.extent c)) - 1))
         else
           String.concat " "
             (map Py.strip
                (lines_between (Py.splitlines content)
                   (SourceLocation.line (SourceRange.start (Cursor.extent c)))
                   (SourceLocation.line (SourceRange.end_ (Cursor.extent c))))))).
Proof.
  intros (Hs & He & Hl) Hle.
  unfold full_name_from_cursor, read_file. rewrite file_content.
  cbn [bind]. set (lines := Py.splitlines content) in *.
  set (a := SourceLocation.line (SourceRange.start (Cursor.extent c))) in *.
  set (b := SourceLocation.line (SourceRange.end_ (Cursor.extent c))) in *.
  destruct (Z.eqb_spec a b) as [Hab|Hab].
  - rewrite (index_line lines Hl). cbn [bind]. unfold strip_semicolon.
    destruct (Py.endswith _ ";"); reflexivity.
  - rewrite (index_line lines Hs). cbn [bind].
    rewrite append_lines_in_range.
    2:{ rewrite Forall_forall. intros l Hin. apply in_range in Hin. lia. }
    cbn [bind]. rewrite (index_line lines He). cbn [bind].
    rewrite fold_left_join, concat_snoc.
    assert (Hpieces :
      Py.strip (line_at lines a)
      :: map (fun l => Py.strip (line_at lines (l + 1))) (Py.range a (b - 1))
         ++ [Py.strip (line_at lines b)]
      = map Py.strip (lines_between lines a b)).
    { unfold lines_between.
      rewrite (@range_cons a (b + 1)) by lia.
      rewrite (@range_snoc (a + 1) (b + 1)) by lia.
      replace (b + 1 - 1) with (b - 1 + 1) by lia.
      rewrite range_shift. cbn [map]. rewrite !map_app, !map_map.
      cbn [map]. now replace (b - 1 + 1) with b by lia. }
    rewrite Hpieces. unfold strip_semicolon.
    destruct (Py.endswith _ ";"); reflexivity.
Qed.


End Full_name_facts.

(** ** The output of a run *)

Section Report_facts.

Variable fs : FileSystem.
Variable tu : TranslationUnit.t.

Lemma print_loop_lines (l : list SideEffectInfo.t) :
  forall out,
  fold_left print_side_effect l out = out ++ flat_map (print_side_effect []) l.
Proof.
  induction l as [|se l IH]; intros out; cbn [fold_left flat_map].
  - now rewrite app_nil_r.
  - rewrite IH. unfold print_side_effect, print. cbn [app].
    now rewrite <- !app_assoc.
Qed.

Lemma print_side_effect_info_lines (name : string)
    (l : list SideEffectInfo.t) (out : list string) :
  print_side_effect_info name l out =
  out ++ ("Funciton: " ++ name)%string :: flat_map (print_side_effect []) l.
Proof.
  unfold print_side_effect_info, print.
  rewrite print_loop_lines. now rewrite <- app_assoc.
Qed.

Lemma print_side_effect_info_app (name : string)
    (l : list SideEffectInfo.t) (out : list string) :
  print_side_effect_info name l out = out ++ print_side_effect_info name l [].
Proof.
  now rewrite !print_side_effect_info_lines.
Qed.

Lemma block_lines (c : Cursor.t) (s : string) :
  In s (block fs tu c) -> starts_with_N s = false.
Proof.
  unfold block. rewrite print_side_effect_info_lines. cbn [app].
  intros [<-|Hin]; [reflexivity|].
  apply in_flat_map in Hin. destruct Hin as (se & _ & Hs).
  unfold print_side_effect, print in Hs. cbn [app] in Hs.
  destruct Hs as [<-|[<-|[<-|[<-|[]]]]]; reflexivity.
Qed.

Lemma blocks_without_summary (cs : list Cursor.t) :
  ~ In summary_line (flat_map (block fs tu) cs).
Proof.
  intros Hin. apply in_flat_map in Hin. destruct Hin as (c & _ & Hs).
  apply block_lines in Hs. discriminate.
Qed.

(** A run of the loop that ends without an exception: every function was
    scanned, the blocks of the functions with findings were printed in
    order, and the flag stays up when there was none. *)
Lemma main_loop_returns (cs : list Cursor.t) :
  forall flag out0 out r,
  main_loop fs cs tu flag out0 = (out, Ok r) ->
  out = out0 ++ flat_map (block fs tu)
                  (filter (has_findings fs tu) (filter is_function cs))
  /\ r = flag && forallb (fun c => negb (has_findings fs tu c))
                   (filter is_function cs)
  /\ Forall (fun c => exists l, scan_function fs c tu = Ok l)
       (filter is_function cs).
Proof.
  induction cs as [|c cs IH]; intros flag out0 out r Hrun.
  - cbn in Hrun. injection Hrun as <- <-. cbn.
    now rewrite app_nil_r, andb_true_r.
  - cbn [main_loop] in Hrun. cbn [filter].
    fold (is_function c) in Hrun.
    destruct (is_function c) eqn:Hfun; [|now apply IH].
    cbn [filter forallb].
    destruct (scan_function fs c tu) as [[|se l]|e] eqn:Hscan;
      [| |discriminate].
    + assert (Hf : has_findings fs tu c = false).
      { unfold has_findings, findings_of. now rewrite Hscan. }
      rewrite Hf. destruct (IH _ _ _ _ Hrun) as (Hout & Hr & Hall).
      cbn [negb andb]. repeat split; eauto.
    + assert (Hf : has_findings fs tu c = true).
      { unfold has_findings, findings_of. now rewrite Hscan. }
      rewrite Hf. destruct (IH _ _ _ _ Hrun) as (Hout & Hr & Hall).
      cbn [negb andb flat_map]. repeat split; eauto.
      * rewrite Hout, print_side_effect_info_app, <- app_assoc.
        unfold block, findings_of. now rewrite Hscan.
      * now rewrite andb_false_r.
Qed.

Lemma quiet_iff :
  Forall (fun c => exists l, scan_function fs c tu = Ok l) (functions tu) ->
  forallb (fun c => negb (has_findings fs tu c)) (functions tu) = true
  <-> Forall (fun c => scan_function fs c tu = Ok []) (functions tu).
Proof.
  intros Hall. rewrite forallb_forall, Forall_forall.
  rewrite Forall_forall in Hall.
  split; intros H c Hc.
  - specialize (H c Hc). destruct (Hall c Hc) as (l & Hl).
    unfold has_findings, findings_of in H. rewrite Hl in *.
    destruct l; [reflexivity|discriminate].
  - unfold has_findings, findings_of. now rewrite (H c Hc).
Qed.

Lemma reported_nil :
  forallb (fun c => negb (has_findings fs tu c)) (functions tu) = true ->
  reported fs tu = [].
Proof.
  unfold reported. induction (functions tu) as [|c cs IH]; [reflexivity|].
  cbn [forallb filter]. intros H. apply andb_prop in H as [Hc Hcs].
  destruct (has_findings fs tu c); [discriminate|]. auto.
Qed.

End Report_facts.

(** ** The classifier *)

(** C5.  The code at the dereference [*p] of the scenario, a unary operator
    on an [int*] whose pointee is not const-qualified: libclang gives the
    cursor an empty spelling, the test against [operator*] fails, and no
    finding is returned for the node or for the statement around it. *)
Theorem dereference_not_found :
  Cursor.kind Example_f.deref_p = UNARY_OPERATOR
  /\ Cursor.canonical_spelling Example_f.deref_p = ""
  /\ full_name_from_cursor Example_f.fs Example_f.deref_p Example_f.path
     = Ok "*p"
  /\ has_side_effects Example_f.fs Example_f.deref_p Example_f.tu = Ok None
  /\ has_side_effects Example_f.fs Example_f.stmt_x Example_f.tu = Ok None.
Proof.
  repeat split; vm_compute; reflexivity.
Qed.

(** C8.  A finding that [has_side_effects] returns has one of the four
    active tags and never [OTHER]; and at every node at most one of the four
    guards holds, so the order in which they are tried settles nothing. *)
Theorem finding_kinds (fs : FileSystem) (tu : TranslationUnit.t)
    (c : Cursor.t) (f : SideEffectInfo.t) :
  has_side_effects fs c tu = Ok (Some f) ->
  In (SideEffectInfo.kind f)
    [DEREFERENCE_NON_CONST_POINTER; ASSIGN_TO_POINTER_OR_REFERENCE;
     DYNAMIC_MEMORY_ALLOCATION; THROW_EXCEPTION]
  /\ SideEffectInfo.kind f <> OTHER
  /\ forall d, (guards_holding d <= 1)%nat.
Proof.
  intros Hf.
  destruct (@has_side_effects_origin fs tu c f Hf) as (d & _ & Hp & _).
  apply pattern_cases in Hp.
  split; [|split].
  - cbn [In]. destruct Hp as [[-> _]|[[-> _]|[-> _]]]; auto.
  - destruct Hp as [[-> _]|[[-> _]|[-> _]]]; discriminate.
  - intros n. unfold guards_holding.
    rewrite is_assignment_false.
    unfold is_dereference, is_allocation, is_throw.
    destruct (Cursor.kind n); eval_kind_tests; cbn [Nat.b2n Nat.add];
      try lia.
    destruct (_ && _); cbn [Nat.b2n Nat.add]; lia.
Qed.

(** [finding_kinds] at the body of the function of the scenario. *)
Lemma finding_kinds_witness :
  has_side_effects Example_f.fs Example_f.body Example_f.tu
  = Ok (Some Example_f.finding_new)
  /\ In DYNAMIC_MEMORY_ALLOCATION
       [DEREFERENCE_NON_CONST_POINTER; ASSIGN_TO_POINTER_OR_REFERENCE;
        DYNAMIC_MEMORY_ALLOCATION; THROW_EXCEPTION]
  /\ DYNAMIC_MEMORY_ALLOCATION <> OTHER
  /\ (guards_holding Example_f.new_int <= 1)%nat.
Proof.
  assert (H : has_side_effects Example_f.fs Example_f.body Example_f.tu
              = Ok (Some Example_f.finding_new))
    by (vm_compute; reflexivity).
  destruct (@finding_kinds _ _ _ _ H) as (Hin & Hother & Hone).
  split; [exact H|]. split; [exact Hin|]. split; [exact Hother|].
  exact (Hone Example_f.new_int).
Defined.

(** ** The scanner *)

(** C6.  When no node below the scanned cursor matches one of the four
    patterns, at any depth, [scan_function] returns the empty list. *)
Theorem scan_function_no_match (fs : FileSystem) (tu : TranslationUnit.t)
    (c : Cursor.t) :
  Forall (fun d => pattern d = None) (descendants c) ->
  scan_function fs c tu = Ok [].
Proof.
  intros Hall. rewrite scan_function_collect. apply collect_none.
  unfold descendants in Hall. rewrite Forall_forall in *.
  intros child Hin. apply has_side_effects_no_match.
  rewrite Forall_forall. intros d Hd. apply Hall.
  apply in_flat_map. exists child. auto.
Qed.

(** [scan_function_no_match] at the function [id], which only returns its
    argument. *)
Lemma scan_function_no_match_witness :
  Forall (fun d => pattern d = None) (descendants Example_pure.id)
  /\ scan_function Example_pure.fs Example_pure.id Example_pure.tu = Ok [].
Proof.
  assert (H : Forall (fun d => pattern d = None) (descendants Example_pure.id))
    by (unfold descendants; cbn; repeat constructor).
  split; [exact H|]. exact (@scan_function_no_match Example_pure.fs
                              Example_pure.tu Example_pure.id H).
Defined.









(** Nor the tag of the dereference branch. *)
Lemma dereference_never_found (fs : FileSystem) (tu : TranslationUnit.t)
    (c : Cursor.t) (f : SideEffectInfo.t) :
  has_side_effects fs c tu = Ok (Some f) ->
  SideEffectInfo.kind f <> DEREFERENCE_NON_CONST_POINTER.
Proof.
  intros Hf.
  destruct (@has_side_effects_origin fs tu c f Hf) as (d & _ & Hp & _).
  apply pattern_cases in Hp.
  destruct Hp as [[_ Hg]|[[-> _]|[-> _]]]; try discriminate.
  now rewrite is_dereference_false in Hg.
Qed.




(** [full_name_from_cursor_text] at the statement [throw expr;]: the text is
    [throw expr]. *)
Lemma full_name_from_cursor_text_witness :
  Example_throw_expr.fs Example_throw_expr.path
  = Some Example_throw_expr.source
  /\ in_file (Py.splitlines Example_throw_expr.source)
       Example_throw_expr.throw_expr
  /\ 2 <= 2
  /\ full_name_from_cursor Example_throw_expr.fs Example_throw_expr.throw_expr
       Example_throw_expr.path
     = Ok "throw expr".
Proof.
  assert (Hf : Example_throw_expr.fs Example_throw_expr.path
               = Some Example_throw_expr.source) by reflexivity.
  assert (Hin : in_file (Py.splitlines Example_throw_expr.source)
                  Example_throw_expr.throw_expr)
    by (vm_compute; repeat split; discriminate).
  assert (Hle : 2 <= 2) by lia.
  split; [exact Hf|]. split; [exact Hin|]. split; [exact Hle|].
  rewrite (@full_name_from_cursor_text Example_throw_expr.fs
             Example_throw_expr.path Example_throw_expr.source Hf
             Example_throw_expr.throw_expr Hin Hle).
  vm_compute. reflexivity.
Defined.

(** C4, as stated, fails on a range of two lines: the text built for the
    new-expression that starts at 2:14 and ends at 3:11 is made of the two
    whole lines, not of the part of them inside the range. *)
Lemma full_name_takes_whole_lines :
  full_name_from_cursor Example_multiline.fs Example_multiline.new_int
    Example_multiline.path
  = Ok "int* r = new int( 5)"
  /\ spec_code_text (Py.splitlines Example_multiline.source)
       (Cursor.extent Example_multiline.new_int)
     = "new int(         5)"
  /\ full_name_from_cursor Example_multiline.fs Example_multiline.new_int
       Example_multiline.path
     <> Ok (spec_code_text (Py.splitlines Example_multiline.source)
              (Cursor.extent Example_multiline.new_int)).
Proof.
  split; [vm_compute; reflexivity|].
  split; [vm_compute; reflexivity|].
  vm_compute. discriminate.
Qed.

(** ** Exceptions *)





(** ** The report *)

(** C7.  In a run that ends without an exception: the summary line is
    printed exactly when every scanned function has an empty list of
    findings, and it is then the whole output; otherwise the output is made
    of the blocks of the functions that have a finding, in the order of the
    file, and of nothing else. *)
Theorem main_output (fs : FileSystem) (tu : TranslationUnit.t)
    (out : list string) :
  main fs tu = (out, Ok tt) ->
  (In summary_line out
   <-> Forall (fun c => scan_function fs c tu = Ok []) (functions tu))
  /\ (Forall (fun c => scan_function fs c tu = Ok []) (functions tu) ->
      out = [summary_line])
  /\ (~ Forall (fun c => scan_function fs c tu = Ok []) (functions tu) ->
      out = flat_map (block fs tu) (reported fs tu)).
Proof.
  unfold main. intros Hmain.
  destruct (main_loop fs _ tu true []) as [stdout r] eqn:Hloop.
  destruct r as [flag|e]; [|destruct stdout; discriminate].
  destruct (@main_loop_returns fs tu _ _ _ _ _ Hloop) as (Hout & Hflag & Hall).
  fold (functions tu) in Hout, Hflag, Hall. fold (reported fs tu) in Hout.
  cbn [andb app] in Hout, Hflag.
  pose proof (@quiet_iff fs tu Hall) as Hquiet.
  destruct flag.
  - injection Hmain as <-. symmetry in Hflag.
    pose proof (proj1 Hquiet Hflag) as Hq.
    rewrite (@reported_nil fs tu Hflag) in Hout. cbn in Hout. subst stdout.
    unfold print. cbn [app].
    split; [|split]; [split; intros _; [exact Hq|now left]|reflexivity|].
    intros Hnot. now destruct Hnot.
  - injection Hmain as <-.
    assert (Hnq : ~ Forall (fun c => scan_function fs c tu = Ok [])
                      (functions tu)).
    { intros Hq. apply Hquiet in Hq. congruence. }
    split; [|split].
    + split; [|intros Hq; now destruct Hnq].
      intros Hin. rewrite Hout in Hin.
      now apply blocks_without_summary in Hin.
    + intros Hq. now destruct Hnq.
    + intros _. exact Hout.
Qed.

(** [main_output] at the file of the scenario, which has a finding, and at a
    file whose only function has none. *)
Lemma main_output_witness :
  main Example_f.fs Example_f.tu
  = (["Funciton: f"; "Side effect found: DYNAMIC_MEMORY_ALLOCATION";
      "Location: f.cpp:4:14 - 4:24"; "Code: new int(5)"; ""], Ok tt)
  /\ ~ In summary_line
         ["Funciton: f"; "Side effect found: DYNAMIC_MEMORY_ALLOCATION";
          "Location: f.cpp:4:14 - 4:24"; "Code: new int(5)"; ""]
  /\ main Example_pure.fs Example_pure.tu = ([summary_line], Ok tt)
  /\ Forall (fun c => scan_function Example_pure.fs c Example_pure.tu = Ok [])
       (functions Example_pure.tu).
Proof.
  assert (Hf : main Example_f.fs Example_f.tu
               = (["Funciton: f";
                   "Side effect found: DYNAMIC_MEMORY_ALLOCATION";
                   "Location: f.cpp:4:14 - 4:24"; "Code: new int(5)"; ""], Ok tt))
    by (vm_compute; reflexivity).
  assert (Hp : main Example_pure.fs Example_pure.tu = ([summary_line], Ok tt))
    by (vm_compute; reflexivity).
  destruct (@main_output Example_f.fs Example_f.tu _ Hf) as (Hsum & _ & _).
  destruct (@main_output Example_pure.fs Example_pure.tu _ Hp)
    as (Hsum' & _ & _).
  split; [exact Hf|]. split.
  - intros Hin. apply Hsum in Hin.
    inversion Hin as [|? ? Hscan _]; subst. vm_compute in Hscan. discriminate.
  - split; [exact Hp|]. apply Hsum'. now left.
Defined.

(** ** More on the search and on the scan *)

Section Search_order.

Variable fs : FileSystem.
Variable tu : TranslationUnit.t.

Lemma find_app_first {A : Type} (p : A -> bool) (l1 l2 : list A) :
  find p (l1 ++ l2) =
  match find p l1 with
  | Some x => Some x
  | None => find p l2
  end.
Proof.
  induction l1 as [|x l1 IH]; [reflexivity|].
  cbn [app find]. now destruct (p x).
Qed.

Lemma finding_at_match (d : Cursor.t) :
  matches d = true -> finding_at fs tu d <> Ok None.
Proof.
  unfold matches, finding_at, found.
  destruct (pattern d); [intros _|discriminate].
  destruct (full_name_from_cursor fs d _); discriminate.
Qed.

Lemma search_find (cs : list Cursor.t) :
  Forall (fun c => has_side_effects fs c tu =
                   match first_match c with
                   | Some d => finding_at fs tu d
                   | None => Ok None
                   end) cs ->
  search fs cs tu =
  match find matches (flat_map preorder cs) with
  | Some d => finding_at fs tu d
  | None => Ok None
  end.
Proof.
  induction 1 as [|c rest Hc _ IH]; [reflexivity|].
  cbn [search flat_map]. rewrite find_app_first, Hc.
  unfold first_match. destruct (find matches (preorder c)) as [d|] eqn:Hd.
  - apply find_some in Hd as [_ Hd]. apply finding_at_match in Hd.
    destruct (finding_at fs tu d) as [[f|]|e]; [reflexivity|congruence|reflexivity].
  - exact IH.
Qed.

(** The result of [has_side_effects] is what is built at the first node, in
    pre-order, that matches. *)
Lemma has_side_effects_find (c : Cursor.t) :
  has_side_effects fs c tu =
  match first_match c with
  | Some d => finding_at fs tu d
  | None => Ok None
  end.
Proof.
  induction c as [c IH] using cursor_ind.
  rewrite has_side_effects_eq. unfold first_match.
  rewrite preorder_eq. cbn [find]. unfold matches at 1, finding_at.
  destruct (pattern c) as [k|] eqn:Hp.
  - now rewrite Hp.
  - apply search_find. exact IH.
Qed.

Lemma find_first {A : Type} (p : A -> bool) (pre : list A) (d : A)
    (post : list A) :
  Forall (fun x => p x = false) pre -> p d = true ->
  find p (pre ++ d :: post) = Some d.
Proof.
  induction 1 as [|x pre Hx _ IH]; intros Hd; cbn [app find].
  - now rewrite Hd.
  - rewrite Hx. auto.
Qed.

(** X1.  The search is a pre-order walk that stops at the first match: when
    [d] is the first node of the tree, in pre-order, whose guard holds, the
    result of [has_side_effects] is the finding built at [d], with the
    extent and the text of [d], or the exception that building its text
    raises.  Matches after [d], nested or not, play no part. *)
Theorem has_side_effects_first_match (c d : Cursor.t)
    (pre post : list Cursor.t) (kind : SideEffectKind.t) :
  preorder c = pre ++ d :: post ->
  Forall (fun x => pattern x = None) pre ->
  pattern d = Some kind ->
  has_side_effects fs c tu =
  (code <- full_name_from_cursor fs d (TranslationUnit.spelling tu) ;;
   Ok (Some (SideEffectInfo.mk kind (Cursor.extent d) code))).
Proof.
  intros Hpre Hnone Hd.
  rewrite has_side_effects_find. unfold first_match.
  rewrite Hpre, find_first.
  - unfold finding_at. now rewrite Hd.
  - apply Forall_impl with (2 := Hnone). intros x Hx.
    unfold matches. now rewrite Hx.
  - unfold matches. now rewrite Hd.
Qed.

(** X6.  When the file of the translation unit cannot be opened, the search
    raises [FileNotFoundError] exactly when some node of the tree matches;
    a tree without a match is searched without reading the file and gives
    [None]. *)
Theorem has_side_effects_unreadable (c : Cursor.t) :
  fs (TranslationUnit.spelling tu) = None ->
  has_side_effects fs c tu =
  if existsb matches (preorder c) then Raise FileNotFoundError else Ok None.
Proof.
  intros Hfile. rewrite has_side_effects_find. unfold first_match.
  destruct (find matches (preorder c)) as [d|] eqn:Hd.
  - apply find_some in Hd as [Hin Hd].
    replace (existsb matches (preorder c)) with true
      by (symmetry; apply existsb_exists; eauto).
    unfold matches in Hd. unfold finding_at, found.
    destruct (pattern d); [|discriminate].
    unfold full_name_from_cursor, read_file. now rewrite Hfile.
  - replace (existsb matches (preorder c)) with false; [reflexivity|].
    symmetry. apply not_true_is_false. intros Hex.
    apply existsb_exists in Hex as (x & Hin & Hx).
    pose proof (find_none _ _ Hd x Hin). congruence.
Qed.

(** X2.  [scan_function] puts together, in the order of the children, the
    results of [has_side_effects] on each direct child of the scanned
    cursor: a child with a result gives one finding, a child without gives
    none. *)
Theorem scan_function_results (c : Cursor.t)
    (os : list (option SideEffectInfo.t)) :
  Forall2 (fun child o => has_side_effects fs child tu = Ok o)
    (Cursor.get_children c) os ->
  scan_function fs c tu = Ok (flat_map to_list os).
Proof.
  rewrite scan_function_collect.
  induction 1 as [|child o cs os' Hchild _ IH]; [reflexivity|].
  cbn [collect flat_map]. rewrite Hchild, IH. reflexivity.
Qed.

(** X3.  When [has_side_effects] raises on a child and returns on every child
    before it, [scan_function] raises the same exception: the findings
    gathered from the earlier children are lost. *)
Theorem scan_function_raises (c child : Cursor.t) (pre post : list Cursor.t)
    (e : exn) :
  Cursor.get_children c = pre ++ child :: post ->
  Forall (fun x => exists o, has_side_effects fs x tu = Ok o) pre ->
  has_side_effects fs child tu = Raise e ->
  scan_function fs c tu = Raise e.
Proof.
  intros Hchildren Hpre Hchild.
  rewrite scan_function_collect, Hchildren, collect_app.
  assert (Hcollect : exists l, collect fs tu pre = Ok l).
  { clear Hchildren. induction Hpre as [|x pre (o & Hx) _ (l & IH)].
    - now exists [].
    - cbn [collect]. rewrite Hx, IH. cbn [bind]. eauto. }
  destruct Hcollect as (l & ->). cbn [bind collect]. now rewrite Hchild.
Qed.

(** X4.  A scan returns at most one finding for each direct child of the
    scanned cursor. *)
Theorem scan_function_at_most_one_per_child (c : Cursor.t)
    (l : list SideEffectInfo.t) :
  scan_function fs c tu = Ok l ->
  (List.length l <= List.length (Cursor.get_children c))%nat.
Proof.
  rewrite scan_function_collect. apply collect_length.
Qed.

(** X5.  Every finding of a scan stands for a node below the scanned cursor:
    its range is the extent of that node, its code is the text built for
    that node, and its tag goes with the kind of the node, a dereference
    for a unary operator, an allocation for a new-expression, a throw for a
    throw-expression.  No other tag is ever reported. *)
Theorem scan_function_sound (c : Cursor.t) (l : list SideEffectInfo.t)
    (f : SideEffectInfo.t) :
  scan_function fs c tu = Ok l ->
  In f l ->
  exists d,
    In d (descendants c)
    /\ SideEffectInfo.location f = Cursor.extent d
    /\ full_name_from_cursor fs d (TranslationUnit.spelling tu)
       = Ok (SideEffectInfo.code f)
    /\ ((SideEffectInfo.kind f = DEREFERENCE_NON_CONST_POINTER
         /\ Cursor.kind d = UNARY_OPERATOR)
        \/ (SideEffectInfo.kind f = DYNAMIC_MEMORY_ALLOCATION
            /\ Cursor.kind d = CXX_NEW_EXPR)
        \/ (SideEffectInfo.kind f = THROW_EXCEPTION
            /\ Cursor.kind d = CXX_THROW_EXPR)).
Proof.
  intros Hscan Hin. rewrite scan_function_collect in Hscan.
  destruct (@collect_In fs tu _ l f Hscan Hin) as (child & Hchild & Hf).
  destruct (@has_side_effects_origin fs tu child f Hf)
    as (d & Hd & Hp & Hloc & Htext).
  exists d. split; [|split; [exact Hloc|split; [exact Htext|]]].
  - unfold descendants. apply in_flat_map. eauto.
  - apply pattern_cases in Hp.
    destruct Hp as [[-> Hg]|[[-> Hg]|[-> Hg]]].
    + left. split; [reflexivity|]. unfold is_dereference in Hg.
      apply andb_prop in Hg as [Hg _]. apply andb_prop in Hg as [Hg _].
      now apply kind_eqb_eq.
    + right; left. split; [reflexivity|]. now apply kind_eqb_eq.
    + right; right. split; [reflexivity|]. now apply kind_eqb_eq.
Qed.

(** X14.  The scanner reads one file only, the one the translation unit is
    named after: two file systems that agree on it give the same result,
    whatever the files of the cursors' own locations hold. *)
Theorem has_side_effects_reads_main_file (fs' : FileSystem) (c : Cursor.t) :
  fs' (TranslationUnit.spelling tu) = fs (TranslationUnit.spelling tu) ->
  has_side_effects fs' c tu = has_side_effects fs c tu.
Proof.
  intros Hsame. induction c as [c IH] using cursor_ind.
  rewrite !has_side_effects_eq.
  destruct (pattern c) as [k|].
  - unfold found, full_name_from_cursor, read_file. now rewrite Hsame.
  - unfold Cursor.get_children.
    induction IH as [|child rest Hchild _ IHrest]; [reflexivity|].
    cbn [search]. now rewrite Hchild, IHrest.
Qed.

End Search_order.

(** [has_side_effects_first_match] at the body of the function of the
    scenario: thirteen nodes come before [new int(5)], the dereference
    among them, and none of them matches. *)
Lemma has_side_effects_first_match_witness :
  preorder Example_f.body
  = firstn 13 (preorder Example_f.body)
    ++ Example_f.new_int :: skipn 14 (preorder Example_f.body)
  /\ Forall (fun x => pattern x = None) (firstn 13 (preorder Example_f.body))
  /\ pattern Example_f.new_int = Some DYNAMIC_MEMORY_ALLOCATION
  /\ has_side_effects Example_f.fs Example_f.body Example_f.tu
     = Ok (Some Example_f.finding_new).
Proof.
  assert (H1 : preorder Example_f.body
               = firstn 13 (preorder Example_f.body)
                 ++ Example_f.new_int :: skipn 14 (preorder Example_f.body))
    by reflexivity.
  assert (H2 : Forall (fun x => pattern x = None)
                 (firstn 13 (preorder Example_f.body)))
    by (cbn; repeat constructor).
  assert (H3 : pattern Example_f.new_int = Some DYNAMIC_MEMORY_ALLOCATION)
    by reflexivity.
  split; [exact H1|]. split; [exact H2|]. split; [exact H3|].
  rewrite (@has_side_effects_first_match Example_f.fs Example_f.tu
             Example_f.body Example_f.new_int _ _ _ H1 H2 H3).
  vm_compute. reflexivity.
Defined.

(** [has_side_effects_unreadable] with no file at all. *)
Lemma has_side_effects_unreadable_witness :
  (fun _ : string => @None string) (TranslationUnit.spelling Example_f.tu)
  = None
  /\ has_side_effects (fun _ => None) Example_f.body Example_f.tu
     = Raise FileNotFoundError
  /\ has_side_effects (fun _ => None) Example_f.stmt_q Example_f.tu
     = Ok None.
Proof.
  split; [reflexivity|]. split.
  - rewrite (@has_side_effects_unreadable (fun _ => None) Example_f.tu
               Example_f.body eq_refl).
    vm_compute. reflexivity.
  - rewrite (@has_side_effects_unreadable (fun _ => None) Example_f.tu
               Example_f.stmt_q eq_refl).
    vm_compute. reflexivity.
Defined.

(** [scan_function_results] at the block of the scenario. *)
Lemma scan_function_results_witness :
  Forall2 (fun child o =>
             has_side_effects Example_f.fs child Example_f.tu = Ok o)
    (Cursor.get_children Example_f.body)
    [None; None; Some Example_f.finding_new; Some Example_f.finding_throw]
  /\ scan_function Example_f.fs Example_f.body Example_f.tu
     = Ok [Example_f.finding_new; Example_f.finding_throw].
Proof.
  assert (H : Forall2 (fun child o =>
                         has_side_effects Example_f.fs child Example_f.tu
                         = Ok o)
                (Cursor.get_children Example_f.body)
                [None; None; Some Example_f.finding_new;
                 Some Example_f.finding_throw])
    by (repeat (constructor; [vm_compute; reflexivity|]); constructor).
  split; [exact H|].
  exact (@scan_function_results Example_f.fs Example_f.tu Example_f.body _ H).
Defined.

(** [scan_function_raises]: the parameter gives a finding, the body raises,
    and the scan raises. *)
Lemma scan_function_raises_witness :
  Cursor.get_children Example_lost.fail
  = [Example_lost.parm_p] ++ Example_lost.body :: []
  /\ Forall (fun x => exists o,
               has_side_effects Example_header.fs x Example_header.tu = Ok o)
       [Example_lost.parm_p]
  /\ has_side_effects Example_header.fs Example_lost.body Example_header.tu
     = Raise IndexError
  /\ scan_function Example_header.fs Example_lost.fail Example_header.tu
     = Raise IndexError.
Proof.
  assert (H1 : Cursor.get_children Example_lost.fail
               = [Example_lost.parm_p] ++ Example_lost.body :: [])
    by reflexivity.
  assert (H2 : Forall (fun x => exists o,
                         has_side_effects Example_header.fs x
                           Example_header.tu = Ok o)
                 [Example_lost.parm_p]).
  { constructor; [|constructor]. eexists. vm_compute. reflexivity. }
  assert (H3 : has_side_effects Example_header.fs Example_lost.body
                 Example_header.tu = Raise IndexError)
    by (vm_compute; reflexivity).
  split; [exact H1|]. split; [exact H2|]. split; [exact H3|].
  exact (@scan_function_raises Example_header.fs Example_header.tu
           Example_lost.fail Example_lost.body _ _ _ H1 H2 H3).
Defined.

(** [scan_function_at_most_one_per_child] at the function of the scenario:
    two children, one finding. *)
Lemma scan_function_at_most_one_per_child_witness :
  scan_function Example_f.fs Example_f.f Example_f.tu
  = Ok [Example_f.finding_new]
  /\ (List.length [Example_f.finding_new]
      <= List.length (Cursor.get_children Example_f.f))%nat.
Proof.
  assert (H : scan_function Example_f.fs Example_f.f Example_f.tu
              = Ok [Example_f.finding_new]) by (vm_compute; reflexivity).
  split; [exact H|].
  exact (@scan_function_at_most_one_per_child Example_f.fs Example_f.tu
           Example_f.f _ H).
Defined.

(** [scan_function_sound] at the finding for [throw 2] of the function with a
    default argument. *)
Lemma scan_function_sound_witness :
  scan_function Example_default_arg.fs Example_default_arg.d
    Example_default_arg.tu
  = Ok [Example_default_arg.finding_new; Example_default_arg.finding_throw]
  /\ In Example_default_arg.finding_throw
       [Example_default_arg.finding_new; Example_default_arg.finding_throw]
  /\ exists d,
       In d (descendants Example_default_arg.d)
       /\ SideEffectInfo.location Example_default_arg.finding_throw
          = Cursor.extent d
       /\ full_name_from_cursor Example_default_arg.fs d
            (TranslationUnit.spelling Example_default_arg.tu)
          = Ok (SideEffectInfo.code Example_default_arg.finding_throw)
       /\ ((SideEffectInfo.kind Example_default_arg.finding_throw
            = DEREFERENCE_NON_CONST_POINTER
            /\ Cursor.kind d = UNARY_OPERATOR)
           \/ (SideEffectInfo.kind Example_default_arg.finding_throw
               = DYNAMIC_MEMORY_ALLOCATION
               /\ Cursor.kind d = CXX_NEW_EXPR)
           \/ (SideEffectInfo.kind Example_default_arg.finding_throw
               = THROW_EXCEPTION
               /\ Cursor.kind d = CXX_THROW_EXPR)).
Proof.
  assert (H : scan_function Example_default_arg.fs Example_default_arg.d
                Example_default_arg.tu
              = Ok [Example_default_arg.finding_new;
                    Example_default_arg.finding_throw])
    by (vm_compute; reflexivity).
  assert (Hin : In Example_default_arg.finding_throw
                  [Example_default_arg.finding_new;
                   Example_default_arg.finding_throw])
    by (right; left; reflexivity).
  split; [exact H|]. split; [exact Hin|].
  exact (@scan_function_sound Example_default_arg.fs Example_default_arg.tu
           Example_default_arg.d _ _ H Hin).
Defined.

(** [has_side_effects_reads_main_file]: with or without the header on disk,
    the throw of the header's function is looked up in the main file. *)
Lemma has_side_effects_reads_main_file_witness :
  one_file Example_header.path Example_header.source
    (TranslationUnit.spelling Example_header.tu)
  = Example_header.fs (TranslationUnit.spelling Example_header.tu)
  /\ has_side_effects (one_file Example_header.path Example_header.source)
       Example_header.throw_1 Example_header.tu
     = has_side_effects Example_header.fs Example_header.throw_1
         Example_header.tu.
Proof.
  assert (H : one_file Example_header.path Example_header.source
                (TranslationUnit.spelling Example_header.tu)
              = Example_header.fs (TranslationUnit.spelling Example_header.tu))
    by reflexivity.
  split; [exact H|].
  exact (@has_side_effects_reads_main_file Example_header.fs Example_header.tu
           (one_file Example_header.path Example_header.source)
           Example_header.throw_1 H).
Defined.

(** ** More on the text of a cursor *)

Lemma index_wrap {A : Type} (l : list A) (i : Z) (d : A) :
  Py.index l i =
  if (- Z.of_nat (List.length l) <=? i) && (i <? Z.of_nat (List.length l))
  then Ok (nth (Z.to_nat (wrap_index (Z.of_nat (List.length l)) i)) l d)
  else Raise IndexError.
Proof.
  unfold Py.index, wrap_index.
  set (n := Z.of_nat (List.length l)).
  destruct (Z.ltb_spec i 0) as [Hneg|Hpos].
  - destruct (Z.leb_spec 0 (i + n)), (Z.leb_spec (- n) i); try lia;
      destruct (Z.ltb_spec (i + n) n), (Z.ltb_spec i n); try lia;
      cbn [andb]; try reflexivity.
    destruct (nth_error l (Z.to_nat (i + n))) as [x|] eqn:Hnth.
    + now rewrite (nth_error_nth _ _ _ Hnth).
    + apply nth_error_None in Hnth. lia.
  - destruct (Z.leb_spec 0 i), (Z.leb_spec (- n) i); try lia.
    destruct (Z.ltb_spec i n); cbn [andb]; [|reflexivity].
    destruct (nth_error l (Z.to_nat i)) as [x|] eqn:Hnth.
    + now rewrite (nth_error_nth _ _ _ Hnth).
    + apply nth_error_None in Hnth. lia.
Qed.

Lemma index_In {A : Type} (l : list A) (i : Z) (x : A) :
  Py.index l i = Ok x -> In x l.
Proof.
  unfold Py.index. destruct (_ && _); [|discriminate].
  destruct (nth_error l _) as [y|] eqn:Hnth; [|discriminate].
  intros [= <-]. eapply nth_error_In. exact Hnth.
Qed.

(** *** Stripping *)

Lemma lstrip_no_leading_space (s : string) : no_leading_space (Py.lstrip s).
Proof.
  induction s as [|c s IH]; cbn; [exact I|].
  destruct (Py.is_space c) eqn:Hc; [exact IH|exact Hc].
Qed.

Lemma lstrip_fixed (s : string) : no_leading_space s -> Py.lstrip s = s.
Proof.
  destruct s as [|c s]; cbn; [reflexivity|]. now intros ->.
Qed.

Lemma rstrip_no_leading_space (s : string) :
  no_leading_space s -> no_leading_space (Py.rstrip s).
Proof.
  destruct s as [|c s]; cbn [Py.rstrip no_leading_space]; [auto|].
  intros Hc. rewrite Hc. cbn. exact Hc.
Qed.

Lemma rstrip_idempotent (s : string) : Py.rstrip (Py.rstrip s) = Py.rstrip s.
Proof.
  induction s as [|c s IH]; [reflexivity|].
  cbn [Py.rstrip].
  destruct (Py.is_space c && String.eqb (Py.rstrip s) "") eqn:Hcond;
    [reflexivity|].
  cbn [Py.rstrip]. now rewrite IH, Hcond.
Qed.

Lemma strip_idempotent (s : string) : Py.strip (Py.strip s) = Py.strip s.
Proof.
  unfold Py.strip.
  rewrite (@lstrip_fixed _ (@rstrip_no_leading_space _ (lstrip_no_leading_space s))).
  apply rstrip_idempotent.
Qed.

(** *** A final semicolon *)

Lemma length_append_one (t : string) (c : ascii) :
  String.length (t ++ String c "") = S (String.length t).
Proof.
  induction t as [|x t IH]; cbn; [reflexivity|now rewrite IH].
Qed.

Lemma substring_last (t : string) (c : ascii) :
  substring (String.length t) 1 (t ++ String c "") = String c "".
Proof.
  induction t as [|x t IH]; [reflexivity|exact IH].
Qed.

Lemma substring_front (t : string) (c : ascii) :
  substring 0 (String.length t) (t ++ String c "") = t.
Proof.
  induction t as [|x t IH]; [reflexivity|]. cbn. now rewrite IH.
Qed.

Lemma endswith_semicolon (t : string) : Py.endswith (t ++ ";") ";" = true.
Proof.
  unfold Py.endswith. rewrite length_append_one. cbn [String.length].
  replace (S (String.length t) - 1)%nat with (String.length t) by lia.
  now rewrite substring_last.
Qed.

Lemma drop_last_semicolon (t : string) : Py.drop_last (t ++ ";") = t.
Proof.
  unfold Py.drop_last, Py.slice, Py.slice_bound, Py.len.
  rewrite length_append_one. cbn [Z.ltb Z.compare].
  replace (Z.max 0 (Z.min (Z.of_nat (S (String.length t))) 0)) with 0 by lia.
  replace (Z.max 0 (Z.min (Z.of_nat (S (String.length t)))
                      (-1 + Z.of_nat (S (String.length t)))))
    with (Z.of_nat (String.length t)) by lia.
  destruct (Z.ltb_spec 0 (Z.of_nat (String.length t))) as [Hpos|Hzero].
  - rewrite Z.sub_0_r, Nat2Z.id. apply substring_front.
  - destruct t; [reflexivity|cbn in Hzero; lia].
Qed.

(** *** Texts of one line *)

Lemma one_line_app (a b : string) :
  one_line a = true -> one_line b = true -> one_line (a ++ b) = true.
Proof.
  induction a as [|c a IH]; cbn; [auto|].
  intros Ha Hb. apply andb_prop in Ha as [-> Ha]. cbn. auto.
Qed.

Lemma one_line_lstrip (s : string) :
  one_line s = true -> one_line (Py.lstrip s) = true.
Proof.
  induction s as [|c s IH]; cbn [Py.lstrip]; [auto|].
  intros Hs. destruct (Py.is_space c); [|exact Hs].
  cbn in Hs. apply andb_prop in Hs as [_ Hs]. auto.
Qed.

Lemma one_line_rstrip (s : string) :
  one_line s = true -> one_line (Py.rstrip s) = true.
Proof.
  induction s as [|c s IH]; cbn [Py.rstrip]; [auto|].
  intros Hs. cbn in Hs. apply andb_prop in Hs as [Hc Hs].
  destruct (_ && _); [reflexivity|]. cbn. rewrite Hc. cbn. auto.
Qed.

Lemma one_line_strip (s : string) :
  one_line s = true -> one_line (Py.strip s) = true.
Proof.
  intros Hs. unfold Py.strip. now apply one_line_rstrip, one_line_lstrip.
Qed.

Lemma one_line_substring (s : string) :
  forall n m, one_line s = true -> one_line (substring n m s) = true.
Proof.
  induction s as [|c s IH]; intros n m Hs.
  - destruct n, m; reflexivity.
  - cbn in Hs. apply andb_prop in Hs as [Hc Hs].
    destruct n as [|n]; [destruct m as [|m]|]; cbn [substring].
    + reflexivity.
    + cbn. rewrite Hc. cbn. auto.
    + auto.
Qed.

Lemma one_line_slice (s : string) (a b : Z) :
  one_line s = true -> one_line (Py.slice s a b) = true.
Proof.
  intros Hs. unfold Py.slice. destruct (_ <? _); [|reflexivity].
  now apply one_line_substring.
Qed.

Lemma splitlines_from_one_line_bounded (n : nat) :
  forall s cur, (String.length s <= n)%nat -> one_line cur = true ->
  Forall (fun ln => one_line ln = true) (Py.splitlines_from cur s).
Proof.
  induction n as [|n IH]; intros s cur Hlen Hcur.
  - destruct s; [|cbn in Hlen; lia].
    cbn. destruct (String.eqb cur ""); repeat constructor. exact Hcur.
  - destruct s as [|c s].
    + cbn. destruct (String.eqb cur ""); repeat constructor. exact Hcur.
    + cbn in Hlen. cbn [Py.splitlines_from].
      destruct (Py.is_CR c).
      * destruct s as [|c' s'].
        -- constructor; [exact Hcur|]. apply IH; [cbn; lia|reflexivity].
        -- cbn in Hlen.
           destruct (Py.is_LF c'); (constructor; [exact Hcur|]);
             (apply IH; [cbn; lia|reflexivity]).
      * destruct (Py.is_line_boundary c) eqn:Hb.
        -- constructor; [exact Hcur|]. apply IH; [lia|reflexivity].
        -- apply IH; [lia|]. apply one_line_app; [exact Hcur|].
           cbn. now rewrite Hb.
Qed.

Lemma splitlines_one_line (content : string) :
  Forall (fun ln => one_line ln = true) (Py.splitlines content).
Proof.
  unfold Py.splitlines.
  now apply (@splitlines_from_one_line_bounded (String.length content)).
Qed.

Section Text_shape.

Variable fs : FileSystem.
Variable filename content : string.
Hypothesis file_content : fs filename = Some content.

Lemma append_lines_one_line (lines : list string) (ls : list Z) :
  Forall (fun ln => one_line ln = true) lines ->
  forall full_name text,
  one_line full_name = true ->
  append_lines lines ls full_name = Ok text ->
  one_line text = true.
Proof.
  intros Hlines. induction ls as [|l ls IH]; intros full_name text Hacc Hrun.
  - cbn in Hrun. now injection Hrun as <-.
  - cbn [append_lines] in Hrun.
    destruct (Py.index lines l) as [ln|e] eqn:Hln; [|discriminate].
    cbn [bind] in Hrun. refine (IH _ _ _ Hrun).
    rewrite Forall_forall in Hlines.
    apply one_line_app; [exact Hacc|].
    apply (@one_line_app " "); [reflexivity|].
    apply one_line_strip, Hlines. eapply index_In. exact Hln.
Qed.

(** X10.  The text of a cursor never holds a line break, on one line or on
    several: printed after [Code:], it stays on that line. *)
Theorem full_name_from_cursor_one_line (c : Cursor.t) (text : string) :
  full_name_from_cursor fs c filename = Ok text ->
  one_line text = true.
Proof.
  unfold full_name_from_cursor, read_file. rewrite file_content.
  cbn [bind].
  pose proof (splitlines_one_line content) as Hlines.
  set (lines := Py.splitlines content) in *.
  assert (Hindex : forall i ln, Py.index lines i = Ok ln ->
                                one_line ln = true).
  { intros i ln Hln. apply index_In in Hln.
    rewrite Forall_forall in Hlines. auto. }
  assert (Hend : forall full_name,
             one_line full_name = true ->
             (if Py.endswith full_name ";"
              then Ok (Py.strip (Py.drop_last full_name))
              else Ok full_name) = Ok text ->
             one_line text = true).
  { intros full_name Hfull Hres.
    destruct (Py.endswith full_name ";"); injection Hres as <-; [|exact Hfull].
    now apply one_line_strip, one_line_slice. }
  set (a := SourceLocation.line (SourceRange.start (Cursor.extent c))).
  set (b := SourceLocation.line (SourceRange.end_ (Cursor.extent c))).
  destruct (a =? b).
  - destruct (Py.index lines _) as [ln|e] eqn:Hln; [|discriminate].
    cbn [bind]. apply Hend.
    apply one_line_strip, one_line_slice. eapply Hindex. exact Hln.
  - destruct (Py.index lines (a - 1)) as [first|e] eqn:Hfirst;
      [|discriminate].
    cbn [bind].
    destruct (append_lines lines _ _) as [full_name|e] eqn:Hloop;
      [|discriminate].
    cbn [bind].
    destruct (Py.index lines (b - 1)) as [last|e] eqn:Hlast; [|discriminate].
    cbn [bind]. apply Hend.
    apply one_line_app.
    + eapply append_lines_one_line; [exact Hlines| |exact Hloop].
      apply one_line_strip. eapply Hindex. exact Hfirst.
    + apply (@one_line_app " "); [reflexivity|].
      apply one_line_strip. eapply Hindex. exact Hlast.
Qed.

(** X9.  The text of a cursor that starts and ends on the same line has no
    white space at either end: stripping it again changes nothing. *)
Theorem full_name_single_line_stripped (c : Cursor.t) (text : string) :
  SourceLocation.line (SourceRange.start (Cursor.extent c))
  = SourceLocation.line (SourceRange.end_ (Cursor.extent c)) ->
  full_name_from_cursor fs c filename = Ok text ->
  Py.strip text = text.
Proof.
  intros Hline. unfold full_name_from_cursor, read_file.
  rewrite file_content, Hline, Z.eqb_refl. cbn [bind].
  destruct (Py.index _ _) as [ln|e]; [|discriminate]. cbn [bind].
  destruct (Py.endswith _ ";"); intros [= <-]; apply strip_idempotent.
Qed.

(** X7.  On a range of one line the text is read from the line of the
    cursor's location, as a Python list index: with [n] lines in the file,
    the index [location.line - 1] must lie in [-n .. n - 1], else
    [IndexError] is raised; a negative index in that interval reads from
    the end of the file, so that line 0 stands for the last line. *)
Theorem full_name_single_line_index (c : Cursor.t) :
  SourceLocation.line (SourceRange.start (Cursor.extent c))
  = SourceLocation.line (SourceRange.end_ (Cursor.extent c)) ->
  let lines := Py.splitlines content in
  let n := Z.of_nat (List.length lines) in
  let i := SourceLocation.line (Cursor.location c) - 1 in
  (- n <= i < n ->
   full_name_from_cursor fs c filename =
   Ok (strip_semicolon
         (Py.strip
            (Py.slice (nth (Z.to_nat (wrap_index n i)) lines "")
               (SourceLocation.column (SourceRange.start (Cursor.extent c)) - 1)
               (SourceLocation.column (SourceRange.end_ (Cursor.extent c)) - 1)))))
  /\ (~ - n <= i < n ->
      full_name_from_cursor fs c filename = Raise IndexError).
Proof.
  intros Hline lines n i.
  unfold full_name_from_cursor, read_file.
  rewrite file_content, Hline, Z.eqb_refl. cbn [bind].
  fold lines. fold i. rewrite (index_wrap lines i ""). fold n.
  split; intros Hi.
  - destruct (Z.leb_spec (- n) i), (Z.ltb_spec i n); try lia.
    cbn [andb bind]. unfold strip_semicolon.
    destruct (Py.endswith _ ";"); reflexivity.
  - destruct (Z.leb_spec (- n) i), (Z.ltb_spec i n); try lia; reflexivity.
Qed.

(** X8.  One semicolon at the end of the stripped columns is dropped, and
    the rest is stripped again: when the columns of a one-line range hold
    [t] followed by a semicolon, the text is [t] stripped.  A second
    semicolon at the end of [t] stays. *)
Theorem full_name_drops_one_semicolon (c : Cursor.t) (t : string) :
  SourceLocation.line (SourceRange.start (Cursor.extent c))
  = SourceLocation.line (SourceRange.end_ (Cursor.extent c)) ->
  1 <= SourceLocation.line (Cursor.location c)
    <= Z.of_nat (List.length (Py.splitlines content)) ->
  Py.strip
    (Py.slice
       (line_at (Py.splitlines content) (SourceLocation.line (Cursor.location c)))
       (SourceLocation.column (SourceRange.start (Cursor.extent c)) - 1)
       (SourceLocation.column (SourceRange.end_ (Cursor.extent c)) - 1))
  = (t ++ ";")%string ->
  full_name_from_cursor fs c filename = Ok (Py.strip t).
Proof.
  intros Hline Hloc Hcols. unfold full_name_from_cursor, read_file.
  rewrite file_content, Hline, Z.eqb_refl. cbn [bind].
  rewrite (index_line _ Hloc). cbn [bind].
  now rewrite Hcols, endswith_semicolon, drop_last_semicolon.
Qed.

End Text_shape.

(** [full_name_from_cursor_one_line] at the new-expression on two lines. *)
Lemma full_name_from_cursor_one_line_witness :
  Example_multiline.fs Example_multiline.path = Some Example_multiline.source
  /\ full_name_from_cursor Example_multiline.fs Example_multiline.new_int
       Example_multiline.path = Ok "int* r = new int( 5)"
  /\ one_line "int* r = new int( 5)" = true.
Proof.
  assert (Hf : Example_multiline.fs Example_multiline.path
               = Some Example_multiline.source) by reflexivity.
  assert (H : full_name_from_cursor Example_multiline.fs
                Example_multiline.new_int Example_multiline.path
              = Ok "int* r = new int( 5)") by (vm_compute; reflexivity).
  split; [exact Hf|]. split; [exact H|].
  exact (@full_name_from_cursor_one_line Example_multiline.fs
           Example_multiline.path Example_multiline.source Hf
           Example_multiline.new_int _ H).
Defined.

(** [full_name_single_line_stripped] at the dereference of the scenario. *)
Lemma full_name_single_line_stripped_witness :
  Example_f.fs Example_f.path = Some Example_f.source
  /\ 2 = 2
  /\ full_name_from_cursor Example_f.fs Example_f.deref_p Example_f.path
     = Ok "*p"
  /\ Py.strip "*p" = "*p".
Proof.
  assert (Hf : Example_f.fs Example_f.path = Some Example_f.source)
    by reflexivity.
  assert (H : full_name_from_cursor Example_f.fs Example_f.deref_p
                Example_f.path = Ok "*p") by (vm_compute; reflexivity).
  split; [exact Hf|]. split; [reflexivity|]. split; [exact H|].
  exact (@full_name_single_line_stripped Example_f.fs Example_f.path
           Example_f.source Hf Example_f.deref_p _ eq_refl H).
Defined.

(** [full_name_single_line_index] at a cursor on line 0 of the file of the
    scenario: the index is -1 and the text comes from the last line. *)
Lemma full_name_single_line_index_witness :
  Example_f.fs Example_f.path = Some Example_f.source
  /\ 0 = 0
  /\ - 6 <= 0 - 1 < 6
  /\ full_name_from_cursor Example_f.fs unlocated_throw Example_f.path
     = Ok "}".
Proof.
  assert (Hf : Example_f.fs Example_f.path = Some Example_f.source)
    by reflexivity.
  assert (Hi : - 6 <= 0 - 1 < 6) by lia.
  split; [exact Hf|]. split; [reflexivity|]. split; [exact Hi|].
  destruct (@full_name_single_line_index Example_f.fs Example_f.path
              Example_f.source Hf unlocated_throw eq_refl) as [Hin _].
  rewrite (Hin Hi). vm_compute. reflexivity.
Defined.

(** [full_name_drops_one_semicolon] at the statement [throw expr;]. *)
Lemma full_name_drops_one_semicolon_witness :
  Example_throw_expr.fs Example_throw_expr.path
  = Some Example_throw_expr.source
  /\ 2 = 2
  /\ 1 <= 2 <= Z.of_nat (List.length (Py.splitlines Example_throw_expr.source))
  /\ Py.strip (Py.slice (line_at (Py.splitlines Example_throw_expr.source) 2)
                 (5 - 1) (16 - 1))
     = ("throw expr" ++ ";")%string
  /\ full_name_from_cursor Example_throw_expr.fs throw_statement
       Example_throw_expr.path
     = Ok "throw expr".
Proof.
  assert (Hf : Example_throw_expr.fs Example_throw_expr.path
               = Some Example_throw_expr.source) by reflexivity.
  assert (Hl : 1 <= 2 <= Z.of_nat (List.length
                                     (Py.splitlines Example_throw_expr.source)))
    by (vm_compute; split; discriminate).
  assert (Hc : Py.strip (Py.slice
                           (line_at (Py.splitlines Example_throw_expr.source) 2)
                           (5 - 1) (16 - 1))
               = ("throw expr" ++ ";")%string) by (vm_compute; reflexivity).
  split; [exact Hf|]. split; [reflexivity|]. split; [exact Hl|].
  split; [exact Hc|].
  exact (@full_name_drops_one_semicolon Example_throw_expr.fs
           Example_throw_expr.path Example_throw_expr.source Hf
           throw_statement "throw expr" eq_refl Hl Hc).
Defined.

(** ** More on the run *)

Section Run_facts.

Variable fs : FileSystem.
Variable tu : TranslationUnit.t.

Lemma print_side_effect_length (se : SideEffectInfo.t) :
  List.length (print_side_effect [] se) = 4%nat.
Proof. reflexivity. Qed.

Lemma flat_map_length_const {A B : Type} (f : A -> list B) (k : nat)
    (l : list A) :
  (forall x, List.length (f x) = k) ->
  List.length (flat_map f l) = (k * List.length l)%nat.
Proof.
  intros Hf. induction l as [|x l IH]; cbn [flat_map List.length]; [lia|].
  rewrite length_app, Hf, IH. lia.
Qed.

(** X11.  The report of one function is added after what was printed before,
    which is kept as it is: a line with the name of the function, then
    four lines for each finding, the last of them empty. *)
Theorem print_side_effect_info_appends (function_name : string)
    (side_effects : list SideEffectInfo.t) (stdout : list string) :
  exists report,
    print_side_effect_info function_name side_effects stdout
    = stdout ++ ("Funciton: " ++ function_name)%string :: report
    /\ List.length report = (4 * List.length side_effects)%nat
    /\ forall k, (k < List.length side_effects)%nat ->
                 nth (4 * k + 3) report "?" = "".
Proof.
  exists (flat_map (print_side_effect []) side_effects).
  split; [apply print_side_effect_info_lines|]. split.
  - apply flat_map_length_const. apply print_side_effect_length.
  - induction side_effects as [|se l IH]; intros k Hk; [cbn in Hk; lia|].
    cbn [flat_map]. destruct k as [|k].
    + reflexivity.
    + replace (4 * S k + 3)%nat with (4 + (4 * k + 3))%nat by lia.
      change (print_side_effect [] se ++ flat_map (print_side_effect []) l)
        with (nth 0 (print_side_effect [] se) "?"
              :: nth 1 (print_side_effect [] se) "?"
              :: nth 2 (print_side_effect [] se) "?"
              :: nth 3 (print_side_effect [] se) "?"
              :: flat_map (print_side_effect []) l).
      cbn [Nat.add nth]. apply IH. cbn in Hk. lia.
Qed.

(** The loop of [main] steps over the cursors that are no functions. *)
Lemma main_loop_functions (cs : list Cursor.t) :
  forall flag out,
  main_loop fs cs tu flag out = main_loop fs (filter is_function cs) tu flag out.
Proof.
  induction cs as [|c cs IH]; intros flag out; [reflexivity|].
  cbn [main_loop filter]. fold (is_function c).
  destruct (is_function c) eqn:Hfun; [|apply IH].
  cbn [main_loop]. fold (is_function c). rewrite Hfun.
  destruct (scan_function fs c tu) as [[|se l]|e]; auto.
Qed.

(** X13.  Only the cursors directly below the translation unit that are
    function or method declarations are scanned.  When there is none, the
    one line of the summary is printed, whatever the other declarations
    hold: a method defined inside a class is not looked at. *)
Theorem main_without_functions :
  Forall (fun c => is_function c = false)
    (Cursor.get_children (TranslationUnit.cursor tu)) ->
  main fs tu = ([summary_line], Ok tt).
Proof.
  intros Hnone. unfold main. rewrite main_loop_functions.
  replace (filter is_function
             (Cursor.get_children (TranslationUnit.cursor tu)))
    with (@nil Cursor.t); [reflexivity|].
  induction Hnone as [|c cs Hc _ IH]; [reflexivity|].
  cbn [filter]. now rewrite Hc.
Qed.

(** The loop of [main] over functions whose scans return. *)
Lemma main_loop_app (pre rest : list Cursor.t) :
  Forall (fun c => is_function c = true ->
                   exists l, scan_function fs c tu = Ok l) pre ->
  forall flag out,
  main_loop fs (pre ++ rest) tu flag out =
  main_loop fs rest tu
    (flag && forallb (fun c => negb (has_findings fs tu c))
               (filter is_function pre))
    (out ++ flat_map (block fs tu)
              (filter (has_findings fs tu) (filter is_function pre))).
Proof.
  induction 1 as [|c pre Hc _ IH]; intros flag out.
  - cbn. now rewrite andb_true_r, app_nil_r.
  - cbn [app main_loop filter]. fold (is_function c).
    destruct (is_function c) eqn:Hfun; [|apply IH].
    destruct (Hc eq_refl) as (l & Hl). rewrite Hl.
    cbn [filter forallb].
    destruct l as [|se l].
    + assert (Hf : has_findings fs tu c = false).
      { unfold has_findings, findings_of. now rewrite Hl. }
      rewrite Hf, IH. reflexivity.
    + assert (Hf : has_findings fs tu c = true).
      { unfold has_findings, findings_of. now rewrite Hl. }
      rewrite Hf, IH. cbn [negb andb flat_map].
      rewrite andb_false_r, print_side_effect_info_app, <- app_assoc.
      unfold block, findings_of. now rewrite Hl.
Qed.

(** X12.  When the scan of a function raises, the run ends there with that
    exception: the reports of the functions before it have been printed,
    nothing is printed for it or for the functions after it, and the
    summary line is not printed. *)
Theorem main_raises (pre post : list Cursor.t) (c : Cursor.t) (e : exn) :
  Cursor.get_children (TranslationUnit.cursor tu) = pre ++ c :: post ->
  Forall (fun x => is_function x = true ->
                   exists l, scan_function fs x tu = Ok l) pre ->
  is_function c = true ->
  scan_function fs c tu = Raise e ->
  main fs tu
  = (flat_map (block fs tu)
       (filter (has_findings fs tu) (filter is_function pre)), Raise e)
  /\ ~ In summary_line (fst (main fs tu)).
Proof.
  intros Hchildren Hpre Hfun Hscan.
  assert (Hmain : main fs tu
                  = (flat_map (block fs tu)
                       (filter (has_findings fs tu) (filter is_function pre)),
                     Raise e)).
  { unfold main. rewrite Hchildren, (main_loop_app _ Hpre).
    cbn [main_loop app]. fold (is_function c). rewrite Hfun, Hscan.
    reflexivity. }
  split; [exact Hmain|]. rewrite Hmain. cbn [fst].
  apply blocks_without_summary.
Qed.

End Run_facts.

(** [main_without_functions] at the class with a throwing method. *)
Lemma main_without_functions_witness :
  Forall (fun c => is_function c = false)
    (Cursor.get_children (TranslationUnit.cursor Example_class.tu))
  /\ In Example_class.throw_1
       (flat_map preorder
          (Cursor.get_children (TranslationUnit.cursor Example_class.tu)))
  /\ pattern Example_class.throw_1 = Some THROW_EXCEPTION
  /\ main Example_class.fs Example_class.tu = ([summary_line], Ok tt).
Proof.
  assert (H : Forall (fun c => is_function c = false)
                (Cursor.get_children
                   (TranslationUnit.cursor Example_class.tu)))
    by (repeat constructor).
  split; [exact H|]. split; [cbn; tauto|]. split; [reflexivity|].
  exact (@main_without_functions Example_class.fs Example_class.tu H).
Defined.

(** [main_raises] at a file whose first function is reported and whose
    second function comes from a header. *)
Lemma main_raises_witness :
  Cursor.get_children (TranslationUnit.cursor Example_partial.tu)
  = [Example_partial.ok] ++ Example_partial.late :: []
  /\ Forall (fun x => is_function x = true ->
                      exists l, scan_function Example_partial.fs x
                                  Example_partial.tu = Ok l)
       [Example_partial.ok]
  /\ is_function Example_partial.late = true
  /\ scan_function Example_partial.fs Example_partial.late Example_partial.tu
     = Raise IndexError
  /\ main Example_partial.fs Example_partial.tu
     = (["Funciton: ok"; "Side effect found: THROW_EXCEPTION";
         "Location: p.cpp:1:13 - 1:20"; "Code: throw 0"; ""],
        Raise IndexError).
Proof.
  assert (H1 : Cursor.get_children (TranslationUnit.cursor Example_partial.tu)
               = [Example_partial.ok] ++ Example_partial.late :: [])
    by reflexivity.
  assert (H2 : Forall (fun x => is_function x = true ->
                         exists l, scan_function Example_partial.fs x
                                     Example_partial.tu = Ok l)
                 [Example_partial.ok]).
  { constructor; [|constructor]. intros _. eexists. vm_compute. reflexivity. }
  assert (H3 : is_function Example_partial.late = true) by reflexivity.
  assert (H4 : scan_function Example_partial.fs Example_partial.late
                 Example_partial.tu = Raise IndexError)
    by (vm_compute; reflexivity).
  split; [exact H1|]. split; [exact H2|]. split; [exact H3|].
  split; [exact H4|].
  destruct (@main_raises Example_partial.fs Example_partial.tu _ _ _ _
              H1 H2 H3 H4) as [Hmain _].
  rewrite Hmain. vm_compute. reflexivity.
Defined.
